(** * SagasuSubs: the upload client of [SagasuSubs/api/__init__.py]

    A shallow embedding of the class [UploadFiles]: the three remote
    operations ([get_file], [upload_file], [upload_dialogs]), the per-record
    workflow [upload_subtitles] and the orchestrator [run].

    The coroutines of one upload unit are sequential code with two effects:
    HTTP calls through the shared client and log lines.  They are embedded in
    a state-and-exception monad over a [World] that records the requests
    issued and the log lines emitted; the replies of the remote service come
    from an oracle that sees the requests issued before. *)

From Stdlib Require Import String ZArith Bool Lia Arith List Permutation.
Import ListNotations.
Open Scope Z_scope.

#[local] Set Warnings "-register-all".

(** ** Python values and builtins used by the module *)

Module Py.

(** The values a nullable identifier field can take. *)
Inductive value : Type :=
| PyNone
| PyInt (z : Z)
| PyStr (s : string).

(** Truth value testing, as done by [assert x] and [x or y]. *)
Definition truthy (v : value) : bool :=
  match v with
  | PyNone => false
  | PyInt z => negb (z =? 0)
  | PyStr s => negb (String.eqb s EmptyString)
  end.

(** [len(range(start, stop, step))]. *)
Definition range_length (start stop step : Z) : Z :=
  if 0 <? step then
    if start <? stop then (stop - start - 1) / step + 1 else 0
  else
    if stop <? start then (start - stop - 1) / (- step) + 1 else 0.

(** [range(start, stop, step)]; [None] stands for the [ValueError] raised
    when [step] is zero. *)
Definition range (start stop step : Z) : option (list Z) :=
  if step =? 0 then None
  else Some (map (fun i => start + Z.of_nat i * step)
                 (seq 0 (Z.to_nat (range_length start stop step)))).

(** Normalisation of one bound of a slice of a sequence of length [n]. *)
Definition clamp (n i : Z) : Z :=
  if i <? 0 then Z.max 0 (n + i) else Z.min i n.

(** [l[lo:hi]]. *)
Definition slice {A : Type} (l : list A) (lo hi : Z) : list A :=
  let n := Z.of_nat (length l) in
  let lo' := clamp n lo in
  let hi' := clamp n hi in
  firstn (Z.to_nat (hi' - lo')) (skipn (Z.to_nat lo') l).

End Py.

(** ** JSON documents and HTTP responses *)

Inductive Json : Type :=
| JNull
| JBool (b : bool)
| JNum (z : Z)
| JStr (s : string)
| JArr (items : list Json)
| JObj (fields : list (string * Json)).

Fixpoint chars (s : string) : list Json :=
  match s with
  | EmptyString => []
  | String c s' => JStr (String c EmptyString) :: chars s'
  end.

(** Iterating over a decoded document: the items of an array, the keys of an
    object, the characters of a string; [None] is the [TypeError] of a
    document that is not iterable. *)
Definition json_iter (j : Json) : option (list Json) :=
  match j with
  | JArr items => Some items
  | JObj fields => Some (map (fun kv => JStr (fst kv)) fields)
  | JStr s => Some (chars s)
  | JNull | JBool _ | JNum _ => None
  end.

(** An [httpx.Response]: the status code and what [response.json()] gives,
    [None] when the payload does not decode as JSON. *)
Record Response : Type := mkResponse {
  status_code : Z;
  json : option Json
}.

Definition is_success (r : Response) : bool :=
  (200 <=? status_code r) && (status_code r <=? 299).

(** The exceptions the module can meet; all derive from [Exception]. *)
Inductive exn : Type :=
| HTTPStatusError (response : Response)
| TransportError (reason : string)
| JSONDecodeError
| TypeError
| ValidationError
| ValueError
| AssertionError.

Definition is_http_status_error (e : exn) : bool :=
  match e with HTTPStatusError _ => true | _ => false end.

(** ** The pydantic models of [SagasuSubs.api.models] and the types of
    [SagasuSubs.database.dto]

    Neither module is part of the sources at hand; what [UploadFiles] needs
    from them is taken as an interface. *)

Class Models : Type := {
  UserId : Type;          (* type of [auth_data.id] *)
  Time : Type;            (* type of a dialog's [begin] and [end] *)
  FileEntity : Type;      (* [models.FileRead] *)
  DialogEntity : Type;    (* [models.DialogRead] *)
  entity_id : FileEntity -> string;
  (* [parse_obj]; [None] is pydantic's [ValidationError] *)
  FileRead_parse_obj : Json -> option FileEntity;
  DialogRead_parse_obj : Json -> option DialogEntity
}.

(** [dto.DialogRead] *)
Record DialogRead `{Models} : Type := mkDialogRead {
  content : string;
  begin_ : Time;
  end_ : Time
}.

(** [dto.FileRead] *)
Record FileRead `{Models} : Type := mkFileRead {
  filename : string;
  sha1 : string;
  series_id : Py.value;
  series_name : string;
  path : string;
  dialogs : list DialogRead
}.

(** [models.FileCreate(...).dict()] *)
Record FileCreate `{Models} : Type := mkFileCreate {
  fc_filename : string;
  fc_sha1 : string;
  fc_series_id : Py.value;
  fc_remark : string;
  fc_user_id : UserId
}.

(** [models.DialogCreate(...).dict()] *)
Record DialogCreate `{Models} : Type := mkDialogCreate {
  dc_file_id : string;
  dc_content : string;
  dc_begin : Time;
  dc_end : Time;
  dc_user_id : UserId
}.

(** The calls made through [self.client]. *)
Inductive Request `{Models} : Type :=
| GetFileBySha1 (sha1 : string)                 (* GET /api/files/sha1/{sha1} *)
| PostFile (model : FileCreate)                 (* POST /api/files *)
| PostDialogsBulk (timeout : Z) (bulk : list DialogCreate).
                                                (* POST /api/dialogs/bulk *)

(** What a call gives: a response, or a transport-level failure. *)
Inductive Reply : Type :=
| Replied (response : Response)
| Failed (reason : string).

(** The remote service as seen by one client: the reply to a request may
    depend on the requests issued before it. *)
Definition Network `{Models} : Type := list Request -> Request -> Reply.

(** The lines written to the logger. *)
Inductive LogRecord `{Models} : Type :=
| DebugFileExisted (sha1 : string)
| DebugFileSynced (filename sha1 : string)
| DebugDialogsSynced (file_id : string) (lo hi total : Z)
| ErrorServerRespond (status : Z) (data : Json)
| ExceptionOccurred (e : exn).

(** The methods of the logger the module calls. *)
Inductive LogMethod : Type :=
| logger_debug
| logger_error
| logger_exception.

(** The method each line is written with. *)
Definition method_of `{Models} (r : LogRecord) : LogMethod :=
  match r with
  | DebugFileExisted _ => logger_debug
  | DebugFileSynced _ _ => logger_debug
  | DebugDialogsSynced _ _ _ _ => logger_debug
  | ErrorServerRespond _ _ => logger_error
  | ExceptionOccurred _ => logger_exception
  end.

(** Modelled from the spec: the logger of [SagasuSubs.log] is missing from
    the sources, and with it the severities of its methods.  Following
    sections 4.3 and 7, the lines of the successful steps are debug-level
    lines, a remote rejection is logged as an error, and an unexpected
    exception is logged at a higher severity than that. *)
Definition severity (m : LogMethod) : nat :=
  match m with
  | logger_debug => 0
  | logger_error => 1
  | logger_exception => 2
  end.

Record World `{Models} : Type := mkWorld {
  sent : list Request;
  logs : list LogRecord
}.

(** ** The monad of a coroutine: state and exceptions *)

Inductive Result (A : Type) : Type :=
| Ok (a : A)
| Raise (e : exn).
Arguments Ok {A} a.
Arguments Raise {A} e.

Definition M `{Models} (A : Type) : Type := World -> Result A * World.

Section Monad.
Context `{Models}.

Definition ret {A} (a : A) : M A := fun w => (Ok a, w).

Definition raise {A} (e : exn) : M A := fun w => (Raise e, w).

Definition bind {A B} (m : M A) (k : A -> M B) : M B :=
  fun w =>
    match m w with
    | (Ok a, w') => k a w'
    | (Raise e, w') => (Raise e, w')
    end.

(** [try: body except ...: handler]; [handler e] is [None] when no
    [except] clause matches [e]. *)
Definition try_except {A} (body : M A) (handler : exn -> option (M A)) : M A :=
  fun w =>
    match body w with
    | (Ok a, w') => (Ok a, w')
    | (Raise e, w') =>
        match handler e with
        | Some h => h w'
        | None => (Raise e, w')
        end
    end.

(** An operation that raises [e] when it has no result. *)
Definition or_raise {A} (e : exn) (o : option A) : M A :=
  match o with
  | Some a => ret a
  | None => raise e
  end.

(** [w] with one more log line. *)
Definition logged (w : World) (r : LogRecord) : World :=
  {| sent := sent w; logs := logs w ++ [r] |}.

Definition log (r : LogRecord) : M unit := fun w => (Ok tt, logged w r).

End Monad.

Declare Scope coro_scope.
Delimit Scope coro_scope with coro.
Notation "x <- m ;; k" := (bind m (fun x => k))
  (at level 100, m at next level, right associativity) : coro_scope.
Notation "m ;;; k" := (bind m (fun _ => k))
  (at level 100, right associativity) : coro_scope.
Open Scope coro_scope.

(** ** The class [UploadFiles]

    The instance attributes used by the methods are the authenticated user's
    id ([self.auth_data.id]), the slice size ([self.upload_slice]) and the
    HTTP client ([self.client]), whose peer is the oracle [net]. *)

Section UploadFiles.
Context `{Models}.
Variable net : Network.
Variable auth_id : UserId.
Variable upload_slice : Z.

(** [await self.client.get(...)] and [await self.client.post(...)]: the
    call is recorded, then the reply is a response or an exception. *)
Definition client_send (q : Request) : M Response :=
  fun w =>
    let w' := {| sent := sent w ++ [q]; logs := logs w |} in
    match net (sent w) q with
    | Replied response => (Ok response, w')
    | Failed reason => (Raise (TransportError reason), w')
    end.

(** [response.raise_for_status()]: raises for a response whose status is
    not a success (2xx) status. *)
Definition raise_for_status (response : Response) : M unit :=
  if is_success response then ret tt else raise (HTTPStatusError response).

(** [response.json()] *)
Definition response_json (response : Response) : M Json :=
  or_raise JSONDecodeError (json response).

Definition get_file (sha1 : string) : M (option FileEntity) :=
  response <- client_send (GetFileBySha1 sha1);;
  found <- try_except
             (raise_for_status response;;; ret true)
             (fun e => match e with
                       | HTTPStatusError _ => Some (ret false)
                       | _ => None
                       end);;
  if found : bool then
    log (DebugFileExisted sha1);;;
    data <- response_json response;;
    entity <- or_raise ValidationError (FileRead_parse_obj data);;
    ret (Some entity)
  else ret None.

Definition upload_file (file : FileRead) : M FileEntity :=
  (if Py.truthy (series_id file) then ret tt else raise AssertionError);;;
  let model := {| fc_filename := filename file;
                  fc_sha1 := sha1 file;
                  fc_series_id := series_id file;
                  fc_remark := path file;
                  fc_user_id := auth_id |} in
  response <- client_send (PostFile model);;
  raise_for_status response;;;
  log (DebugFileSynced (filename file) (sha1 file));;;
  data <- response_json response;;
  or_raise ValidationError (FileRead_parse_obj data).

(** [map(models.DialogRead.parse_obj, items)] consumed by [extend]: the
    first item that does not validate raises. *)
Fixpoint parse_dialogs (items : list Json) : option (list DialogEntity) :=
  match items with
  | [] => Some []
  | item :: rest =>
      match DialogRead_parse_obj item with
      | Some d =>
          match parse_dialogs rest with
          | Some ds => Some (d :: ds)
          | None => None
          end
      | None => None
      end
  end.

Definition bulk_data (file_id : string) (dialogs : list DialogRead)
  : list DialogCreate :=
  map (fun dialog => {| dc_file_id := file_id;
                        dc_content := content dialog;
                        dc_begin := begin_ dialog;
                        dc_end := end_ dialog;
                        dc_user_id := auth_id |}) dialogs.

(** [slice or self.upload_slice] *)
Definition effective_slice (slice : option Z) : Z :=
  match slice with
  | Some s => if s =? 0 then upload_slice else s
  | None => upload_slice
  end.

(** The body of the [for] loop of [upload_dialogs], for one offset. *)
Definition submit_chunk (file_id : string) (bulk : list DialogCreate)
    (slice begin : Z) : M (list DialogEntity) :=
  response <- client_send
                (PostDialogsBulk 30 (Py.slice bulk begin (begin + slice)));;
  raise_for_status response;;;
  log (DebugDialogsSynced file_id begin (begin + slice)
         (Z.of_nat (length bulk)));;;
  data <- response_json response;;
  items <- or_raise TypeError (json_iter data);;
  or_raise ValidationError (parse_dialogs items).

(** The [for] loop over the offsets, [responses] being the accumulator. *)
Fixpoint upload_loop (file_id : string) (bulk : list DialogCreate)
    (slice : Z) (offsets : list Z) (responses : list DialogEntity)
  : M (list DialogEntity) :=
  match offsets with
  | [] => ret responses
  | begin :: rest =>
      created <- submit_chunk file_id bulk slice begin;;
      upload_loop file_id bulk slice rest (responses ++ created)
  end.

Definition upload_dialogs (file_id : string) (dialogs : list DialogRead)
    (slice : option Z) : M (list DialogEntity) :=
  let bulk := bulk_data file_id dialogs in
  let slice := effective_slice slice in
  offsets <- or_raise ValueError
               (Py.range 0 (Z.of_nat (length bulk)) slice);;
  upload_loop file_id bulk slice offsets [].

(** The inner [try] block of [upload_subtitles]. *)
Definition create_sequence (file : FileRead) : M (option (list DialogEntity)) :=
  file_response <- upload_file file;;
  dialog_response <- upload_dialogs (entity_id file_response)
                       (dialogs file) None;;
  ret (Some dialog_response).

(** The clause [except httpx.HTTPStatusError as e] of the inner [try];
    after it the function ends, returning [None]. *)
Definition on_status_error (e : exn) : option (M (option (list DialogEntity))) :=
  match e with
  | HTTPStatusError response =>
      Some (data <- response_json response;;
            log (ErrorServerRespond (status_code response) data);;;
            ret None)
  | _ => None
  end.

(** The clause [except Exception as e] of the outer [try]. *)
Definition on_exception {A} (e : exn) : option (M A) :=
  Some (log (ExceptionOccurred e);;; raise e).

(** The outer [try] block of [upload_subtitles].  An entity returned by the
    lookup is a model instance, which is true in the [if] test. *)
Definition unit_body (file : FileRead) : M (option (list DialogEntity)) :=
  existing <- get_file (sha1 file);;
  match existing with
  | Some _ => ret None
  | None => try_except (create_sequence file) on_status_error
  end.

Definition upload_subtitles (file : FileRead) : M (option (list DialogEntity)) :=
  try_except (unit_body file) on_exception.

End UploadFiles.

(** ** The capacity limiter *)

Module AdvanceSemaphore.

(** Modelled from the spec: the class [AdvanceSemaphore] of
    [SagasuSubs.utils] is missing from the sources.  Following section 4.1
    it is a counting admission gate: [limit] is the configured parallelism
    and [counter] the outstanding-work counter. *)
Record t : Type := mk {
  limit : Z;
  counter : Z
}.

Definition init (parallel : Z) : t := {| limit := parallel; counter := 0 |}.

(** Modelled from the spec: [acquire()] lets the caller through only while
    fewer than [limit] units are admitted, and then increments the counter;
    [None] means that the caller stays suspended. *)
Definition acquire (s : t) : option t :=
  if counter s <? limit s
  then Some {| limit := limit s; counter := counter s + 1 |}
  else None.

(** Modelled from the spec: [release()] decrements the counter. *)
Definition release (s : t) : t :=
  {| limit := limit s; counter := counter s - 1 |}.

(** Modelled from the spec: [wait_all_finish()] lets the caller through
    only when the counter is zero. *)
Definition wait_all_finish (s : t) : bool := counter s =? 0.

End AdvanceSemaphore.

(** ** The orchestrator [run] on the event loop

    The event loop is single-threaded: what happens during [run] is a
    sequence of atomic steps between suspension points.  A step is one of:
    the [for] loop admitting the next record and creating its task; a task
    running to the end of [upload_subtitles]; the event loop calling a
    finished task's done-callback; the orchestrator getting past
    [wait_all_finish]. *)

Section Orchestrator.
Context `{Models}.
Variable auth_id : UserId.
Variable upload_slice : Z.

Definition Outcome : Type := Result (option (list DialogEntity)).

Inductive TaskState : Type :=
| Active                       (* created by [create_task], not finished *)
| Finished (outcome : Outcome) (* finished, done-callback not yet called *)
| Notified (outcome : Outcome) (* done-callback called *).

Record Task : Type := mkTask {
  t_file : FileRead;
  t_state : TaskState
}.

Inductive Pc : Type :=
| Iterating   (* in the [for] loop or at [wait_all_finish] *)
| Returned    (* past [wait_all_finish] and [aclose] *).

Record Loop : Type := mkLoop {
  source : list FileRead;   (* records the iterator has still to yield *)
  pc : Pc;
  sem : AdvanceSemaphore.t;
  tasks : list Task;        (* in creation order *)
  acquired : list nat;      (* task indices, one per [sem.acquire()] *)
  released : list nat       (* task indices, one per [sem.release()] *)
}.

Inductive Event : Type :=
| Admit                           (* acquire, create_task, add_done_callback *)
| Complete (i : nat) (net : Network)
                                  (* task [i] finishes, served by [net] *)
| Callback (i : nat)              (* the event loop calls task [i]'s callback *)
| Drain                           (* [wait_all_finish] and [aclose] return *).

Definition start (files : list FileRead) (parallel : Z) : Loop :=
  {| source := files; pc := Iterating;
     sem := AdvanceSemaphore.init parallel;
     tasks := []; acquired := []; released := [] |}.

Fixpoint set_state (i : nat) (st : TaskState) (l : list Task) : list Task :=
  match l, i with
  | [], _ => []
  | t :: rest, O => {| t_file := t_file t; t_state := st |} :: rest
  | t :: rest, S j => t :: set_state j st rest
  end.

Definition is_active (t : Task) : bool :=
  match t_state t with Active => true | _ => false end.

Definition is_notified (t : Task) : bool :=
  match t_state t with Notified _ => true | _ => false end.

(** The number of upload units simultaneously active. *)
Definition active_units (s : Loop) : nat := length (filter is_active (tasks s)).

Definition step (e : Event) (s : Loop) : option Loop :=
  match e with
  | Admit =>
      match pc s, source s with
      | Iterating, file :: rest =>
          match AdvanceSemaphore.acquire (sem s) with
          | Some sem' =>
              Some {| source := rest; pc := Iterating; sem := sem';
                      tasks := tasks s ++ [{| t_file := file; t_state := Active |}];
                      acquired := acquired s ++ [length (tasks s)];
                      released := released s |}
          | None => None
          end
      | _, _ => None
      end
  | Complete i net =>
      match nth_error (tasks s) i with
      | Some {| t_file := file; t_state := Active |} =>
          let outcome :=
            fst (upload_subtitles net auth_id upload_slice file
                   {| sent := []; logs := [] |}) in
          Some {| source := source s; pc := pc s; sem := sem s;
                  tasks := set_state i (Finished outcome) (tasks s);
                  acquired := acquired s; released := released s |}
      | _ => None
      end
  | Callback i =>
      match nth_error (tasks s) i with
      | Some {| t_file := file; t_state := Finished outcome |} =>
          Some {| source := source s; pc := pc s;
                  sem := AdvanceSemaphore.release (sem s);
                  tasks := set_state i (Notified outcome) (tasks s);
                  acquired := acquired s;
                  released := released s ++ [i] |}
      | _ => None
      end
  | Drain =>
      match pc s, source s with
      | Iterating, [] =>
          if AdvanceSemaphore.wait_all_finish (sem s)
          then Some {| source := []; pc := Returned; sem := sem s;
                       tasks := tasks s; acquired := acquired s;
                       released := released s |}
          else None
      | _, _ => None
      end
  end.

(** A schedule is a sequence of events; it is possible from [s] when every
    event is enabled in turn. *)
Fixpoint run_events (evs : list Event) (s : Loop) : option Loop :=
  match evs with
  | [] => Some s
  | e :: rest =>
      match step e s with
      | Some s' => run_events rest s'
      | None => None
      end
  end.

(** [run(begin, end, parallel)] under the schedule [evs], the record source
    yielding [files]: the state it is in after these events. *)
Definition run (files : list FileRead) (parallel : Z) (evs : list Event)
  : option Loop :=
  run_events evs (start files parallel).

(** The states [run] can be in. *)
Definition reachable (files : list FileRead) (parallel : Z) (s : Loop) : Prop :=
  exists evs, run files parallel evs = Some s.

(** What holds of every state of a run with parallelism [parallel]: the
    bookkeeping of the semaphore agrees with the tasks. *)
Record invariant (parallel : Z) (s : Loop) : Prop := {
  inv_limit : AdvanceSemaphore.limit (sem s) = parallel;
  inv_acquired : acquired s = seq 0 (length (tasks s));
  inv_nodup : NoDup (released s);
  inv_released : forall i,
      In i (released s) <->
      exists t, nth_error (tasks s) i = Some t /\ is_notified t = true;
  inv_count : length (released s) = length (filter is_notified (tasks s));
  inv_counter : AdvanceSemaphore.counter (sem s)
                = Z.of_nat (length (tasks s)) - Z.of_nat (length (released s));
  inv_bound : AdvanceSemaphore.counter (sem s) <= Z.max 0 parallel;
  inv_returned : pc s = Returned -> AdvanceSemaphore.counter (sem s) = 0
}.

End Orchestrator.

(** ** Vocabulary of the properties *)

Section Chunks.
Context `{Models}.
Variable net : Network.

(** The chunk of [bulk] at offset [b] for slice size [size]:
    [bulk[b : b + size]]. *)
Definition chunk_at (bulk : list DialogCreate) (size b : Z) : list DialogCreate :=
  Py.slice bulk b (b + size).

(** [ceil(len / size)] for a positive [size]. *)
Definition ceil_div (len size : Z) : Z := (len + size - 1) / size.

(** The chunks at the offsets [0], [size], [2 * size], ... in that order,
    [ceil(len / size)] of them. *)
Definition chunks_of (bulk : list DialogCreate) (size : Z)
  : list (list DialogCreate) :=
  map (fun k => chunk_at bulk size (Z.of_nat k * size))
      (seq 0 (Z.to_nat (ceil_div (Z.of_nat (length bulk)) size))).

(** The created entities a response carries. *)
Definition chunk_entities (response : Response) : option (list DialogEntity) :=
  match json response with
  | Some data =>
      match json_iter data with
      | Some items => parse_dialogs items
      | None => None
      end
  | None => None
  end.

(** [served history chunks replies]: submitted one after the other after
    [history], every chunk gets a success response, the k-th carrying the
    entities [replies[k]]. *)
Inductive served : list Request -> list (list DialogCreate) ->
                   list (list DialogEntity) -> Prop :=
| served_nil : forall history, served history [] []
| served_cons : forall history chunk chunks response entities replies,
    net history (PostDialogsBulk 30 chunk) = Replied response ->
    is_success response = true ->
    chunk_entities response = Some entities ->
    served (history ++ [PostDialogsBulk 30 chunk]) chunks replies ->
    served history (chunk :: chunks) (entities :: replies).

(** The exception with which a call fails: a transport failure, or the
    status error raised by [raise_for_status]. *)
Definition call_failure (reply : Reply) : option exn :=
  match reply with
  | Failed reason => Some (TransportError reason)
  | Replied response =>
      if is_success response then None else Some (HTTPStatusError response)
  end.

End Chunks.

(** ** Concrete models and remote services, for the scenarios of the
    specification *)

Module Scenario.

#[export] Instance models : Models := {|
  UserId := Z;
  Time := Z;
  FileEntity := string;
  DialogEntity := string;
  entity_id := fun id => id;
  FileRead_parse_obj := fun data =>
    match data with
    | JObj [(_, JStr id)] => Some id
    | _ => None
    end;
  DialogRead_parse_obj := fun data =>
    match data with
    | JStr text => Some text
    | _ => None
    end
|}.

Definition nothing : World := {| sent := []; logs := [] |}.

Definition dialog (text : string) : DialogRead :=
  {| content := text; begin_ := 0; end_ := 1 |}.

Definition record (hash : string) (texts : list string) : FileRead :=
  {| filename := "ep01.ass"; sha1 := hash; series_id := Py.PyInt 7;
     series_name := "series"; path := "/subs/ep01.ass";
     dialogs := map dialog texts |}.

Definition orphan : FileRead :=
  {| filename := "ep02.ass"; sha1 := "0a1b"; series_id := Py.PyNone;
     series_name := "series"; path := "/subs/ep02.ass"; dialogs := [] |}.

Definition file_entity (id : string) : Response :=
  {| status_code := 200; json := Some (JObj [("id"%string, JStr id)]) |}.

Definition not_found : Response :=
  {| status_code := 404;
     json := Some (JObj [("detail"%string, JStr "Not Found")]) |}.

Definition rejected : Response :=
  {| status_code := 422;
     json := Some (JObj [("detail"%string, JStr "invalid")]) |}.

(** A server error whose payload is plain text, not JSON. *)
Definition server_error : Response := {| status_code := 500; json := None |}.

(** The created entities of a bulk call: one per submitted dialog. *)
Definition created (bulk : list DialogCreate) : Response :=
  {| status_code := 200; json := Some (JArr (map (fun d => JStr (dc_content d)) bulk)) |}.

(** A service answering the lookup with [lookup], the file creation with
    [creation], and the bulk call number [k] (counted from zero) with
    [bulk k]. *)
Definition service (lookup creation : Reply)
    (bulk : nat -> list DialogCreate -> Reply) : Network :=
  fun history request =>
    match request with
    | GetFileBySha1 _ => lookup
    | PostFile _ => creation
    | PostDialogsBulk _ chunk =>
        bulk (length (filter (fun q => match q with
                                        | PostDialogsBulk _ _ => true
                                        | _ => false
                                        end) history)) chunk
    end.

(** The record is already upstream. *)
Definition known : Network :=
  service (Replied (file_entity "f1")) (Replied rejected)
          (fun _ _ => Replied rejected).

(** The record is new and everything is accepted. *)
Definition fresh : Network :=
  service (Replied not_found) (Replied (file_entity "f1"))
          (fun _ chunk => Replied (created chunk)).

(** The record is new and the file creation is rejected. *)
Definition rejecting : Network :=
  service (Replied not_found) (Replied rejected)
          (fun _ chunk => Replied (created chunk)).

(** The record is new and the file creation meets a server error. *)
Definition failing : Network :=
  service (Replied not_found) (Replied server_error)
          (fun _ chunk => Replied (created chunk)).

(** The lookup itself meets a server error. *)
Definition lookup_failing : Network :=
  service (Replied server_error) (Replied (file_entity "f1"))
          (fun _ chunk => Replied (created chunk)).

(** Everything is accepted but the second bulk call. *)
Definition second_chunk_rejected : Network :=
  service (Replied not_found) (Replied (file_entity "f1"))
          (fun k chunk => if Nat.eqb k 1 then Replied rejected
                          else Replied (created chunk)).

(** The bulk call gets a success response that is not a list of dialogs. *)
Definition garbled : Network :=
  service (Replied not_found) (Replied (file_entity "f1"))
          (fun _ _ => Replied {| status_code := 200; json := Some JNull |}).

Definition five : list string := ["a"; "b"; "c"; "d"; "e"]%string.

(** Five records pending synchronization. *)
Definition batch : list FileRead :=
  [record "r1" five; orphan; record "r3" []; record "r4" five; record "r5" []].


(** A run over [batch] with two slots, units finishing out of order. *)
Definition two_slots : list Event :=
  [Admit; Admit; Complete 1 fresh; Complete 0 rejecting; Callback 1;
   Admit; Callback 0; Admit; Complete 3 failing; Complete 2 known;
   Callback 2; Admit; Callback 3; Complete 4 fresh; Callback 4; Drain].

End Scenario.

(** * Properties *)

(** Unfolding of the monad's operations in a goal or a hypothesis. *)
Ltac unfold_coro :=
  unfold bind, ret, raise, or_raise, try_except, log, logged,
         raise_for_status, response_json, client_send in *.

(** ** The existence lookup *)

Section GetFile.
Context `{Models}.
Variable net : Network.

(** The lookup issues exactly one call, whatever its result. *)
Lemma get_file_sent : forall hash w result w',
  get_file net hash w = (result, w') ->
  sent w' = sent w ++ [GetFileBySha1 hash].
Proof.
  intros hash w result w'. unfold get_file. unfold_coro.
  destruct (net (sent w) (GetFileBySha1 hash)) as [response|reason]; simpl.
  - destruct (is_success response); simpl.
    + destruct (json response) as [data|]; simpl.
      * destruct (FileRead_parse_obj data); simpl;
          intros E; inversion E; reflexivity.
      * intros E; inversion E; reflexivity.
    + intros E; inversion E; reflexivity.
  - intros E; inversion E; reflexivity.
Qed.

(** The lookup never lets a status error out. *)
Lemma get_file_no_status_error : forall hash w response w',
  get_file net hash w <> (Raise (HTTPStatusError response), w').
Proof.
  intros hash w response w'. unfold get_file. unfold_coro.
  destruct (net (sent w) (GetFileBySha1 hash)) as [r|reason]; simpl.
  - destruct (is_success r); simpl.
    + destruct (json r) as [data|]; simpl.
      * destruct (FileRead_parse_obj data); simpl; congruence.
      * congruence.
    + congruence.
  - congruence.
Qed.

(** A transport failure of the lookup propagates. *)
Lemma get_file_transport_error : forall hash w reason,
  net (sent w) (GetFileBySha1 hash) = Failed reason ->
  get_file net hash w =
    (Raise (TransportError reason),
     {| sent := sent w ++ [GetFileBySha1 hash]; logs := logs w |}).
Proof.
  intros hash w reason E. unfold get_file. unfold_coro.
  rewrite E. reflexivity.
Qed.

(** C1, as amended: when the remote service answers the existence lookup
    with a non-success status, [get_file] returns absence ([None]) whatever
    the status is, the not-found status and every other one alike: the
    status error is converted into absence and does not propagate.  One
    call is issued and nothing is logged. *)
Theorem get_file_error_status_is_absence : forall hash w response,
  net (sent w) (GetFileBySha1 hash) = Replied response ->
  is_success response = false ->
  get_file net hash w =
    (Ok None, {| sent := sent w ++ [GetFileBySha1 hash]; logs := logs w |}).
Proof.
  intros hash w response E Hs. unfold get_file. unfold_coro.
  rewrite E. simpl. rewrite Hs. reflexivity.
Qed.

End GetFile.

Lemma get_file_error_status_is_absence_witness :
  get_file Scenario.lookup_failing "abc123" Scenario.nothing =
    (Ok None, {| sent := [GetFileBySha1 "abc123"]; logs := [] |}).
Proof.
  apply (get_file_error_status_is_absence Scenario.lookup_failing "abc123"
           Scenario.nothing Scenario.server_error); reflexivity.
Defined.

(** C1, as stated, fails: a lookup answered with status 500, which is a
    non-success status other than not-found, raises nothing; it returns
    [None]. *)
Lemma get_file_server_error_not_propagated :
  is_success Scenario.server_error = false /\
  status_code Scenario.server_error <> 404 /\
  Scenario.lookup_failing [] (GetFileBySha1 "abc123") =
    Replied Scenario.server_error /\
  fst (get_file Scenario.lookup_failing "abc123" Scenario.nothing) = Ok None /\
  ~ (exists e w', get_file Scenario.lookup_failing "abc123" Scenario.nothing
                  = (Raise e, w')).
Proof.
  repeat split; try reflexivity.
  - simpl. lia.
  - intros [e [w' E]]. vm_compute in E. discriminate E.
Qed.

(** ** The upload unit *)

Section UploadUnit.
Context `{Models}.
Variable net : Network.
Variable auth_id : UserId.
Variable upload_slice : Z.

(** *** The creation sequence, stage by stage *)

Lemma create_sequence_file_raises : forall file w e w',
  upload_file net auth_id file w = (Raise e, w') ->
  create_sequence net auth_id upload_slice file w = (Raise e, w').
Proof.
  intros file w e w' E. unfold create_sequence, bind.
  rewrite E. reflexivity.
Qed.

Lemma create_sequence_dialogs_raise : forall file w created w1 e w',
  upload_file net auth_id file w = (Ok created, w1) ->
  upload_dialogs net auth_id upload_slice (entity_id created)
    (dialogs file) None w1 = (Raise e, w') ->
  create_sequence net auth_id upload_slice file w = (Raise e, w').
Proof.
  intros file w created w1 e w' E1 E2. unfold create_sequence, bind.
  rewrite E1, E2. reflexivity.
Qed.

Lemma create_sequence_returns : forall file w created w1 entities w',
  upload_file net auth_id file w = (Ok created, w1) ->
  upload_dialogs net auth_id upload_slice (entity_id created)
    (dialogs file) None w1 = (Ok entities, w') ->
  create_sequence net auth_id upload_slice file w = (Ok (Some entities), w').
Proof.
  intros file w created w1 entities w' E1 E2. unfold create_sequence, bind.
  rewrite E1, E2. reflexivity.
Qed.

Lemma create_sequence_inv : forall file w result w',
  create_sequence net auth_id upload_slice file w = (Ok result, w') ->
  exists created w1 entities,
    upload_file net auth_id file w = (Ok created, w1) /\
    upload_dialogs net auth_id upload_slice (entity_id created)
      (dialogs file) None w1 = (Ok entities, w') /\
    result = Some entities.
Proof.
  intros file w result w'. unfold create_sequence, bind, ret.
  destruct (upload_file net auth_id file w) as [[created|e] w1] eqn:E1;
    [|discriminate].
  destruct (upload_dialogs net auth_id upload_slice (entity_id created)
              (dialogs file) None w1) as [[entities|e] w2] eqn:E2;
    [|discriminate].
  intros E. inversion E; subst. exists created, w1, entities. auto.
Qed.

(** *** The two [try] statements *)

(** Dedup: an entity found by the lookup ends the unit at once. *)
Lemma unit_skipped : forall file w entity w1,
  get_file net (sha1 file) w = (Ok (Some entity), w1) ->
  upload_subtitles net auth_id upload_slice file w = (Ok None, w1).
Proof.
  intros file w entity w1 E.
  unfold upload_subtitles, unit_body, try_except, bind.
  rewrite E. reflexivity.
Qed.

(** Whatever the outer [try] block raises is logged with
    [logger.exception] and raised again. *)
Lemma unit_reraises : forall file w e w',
  unit_body net auth_id upload_slice file w = (Raise e, w') ->
  upload_subtitles net auth_id upload_slice file w
    = (Raise e, logged w' (ExceptionOccurred e)).
Proof.
  intros file w e w' E.
  unfold upload_subtitles, try_except. rewrite E. reflexivity.
Qed.

Lemma unit_returns : forall file w result w',
  unit_body net auth_id upload_slice file w = (Ok result, w') ->
  upload_subtitles net auth_id upload_slice file w = (Ok result, w').
Proof.
  intros file w result w' E.
  unfold upload_subtitles, try_except. rewrite E. reflexivity.
Qed.

Lemma unit_returns_inv : forall file w result w',
  upload_subtitles net auth_id upload_slice file w = (Ok result, w') ->
  unit_body net auth_id upload_slice file w = (Ok result, w').
Proof.
  intros file w result w'. unfold upload_subtitles, try_except.
  destruct (unit_body net auth_id upload_slice file w) as [[r|e] w1]; simpl.
  - auto.
  - unfold_coro. discriminate.
Qed.

Lemma unit_body_lookup_raises : forall file w e w',
  get_file net (sha1 file) w = (Raise e, w') ->
  unit_body net auth_id upload_slice file w = (Raise e, w').
Proof.
  intros file w e w' E. unfold unit_body, bind. rewrite E. reflexivity.
Qed.

(** An exception of the creation sequence that is not a status error
    goes through the inner [try]. *)
Lemma unit_body_creation_raises : forall file w w1 e w',
  get_file net (sha1 file) w = (Ok None, w1) ->
  create_sequence net auth_id upload_slice file w1 = (Raise e, w') ->
  is_http_status_error e = false ->
  unit_body net auth_id upload_slice file w = (Raise e, w').
Proof.
  intros file w w1 e w' E1 E2 He.
  unfold unit_body, bind, try_except. rewrite E1, E2.
  destruct e; simpl in *; try reflexivity. discriminate He.
Qed.

(** A status error of the creation sequence whose response decodes as
    JSON is logged with [logger.error], and the unit returns [None]. *)
Lemma unit_body_contained : forall file w w1 response data w2,
  get_file net (sha1 file) w = (Ok None, w1) ->
  create_sequence net auth_id upload_slice file w1
    = (Raise (HTTPStatusError response), w2) ->
  json response = Some data ->
  unit_body net auth_id upload_slice file w =
    (Ok None, logged w2 (ErrorServerRespond (status_code response) data)).
Proof.
  intros file w w1 response data w2 E1 E2 Hj.
  unfold unit_body, bind, try_except. rewrite E1, E2. simpl.
  unfold response_json, or_raise, bind, ret, log. rewrite Hj. reflexivity.
Qed.

(** A status error of the creation sequence whose response does not
    decode as JSON: the handler itself raises while formatting the log
    line. *)
Lemma unit_body_handler_raises : forall file w w1 response w2,
  get_file net (sha1 file) w = (Ok None, w1) ->
  create_sequence net auth_id upload_slice file w1
    = (Raise (HTTPStatusError response), w2) ->
  json response = None ->
  unit_body net auth_id upload_slice file w = (Raise JSONDecodeError, w2).
Proof.
  intros file w w1 response w2 E1 E2 Hj.
  unfold unit_body, bind, try_except. rewrite E1, E2. simpl.
  unfold response_json, or_raise, bind, raise. rewrite Hj. reflexivity.
Qed.

(** The ways in which the outer [try] block returns normally. *)
Lemma unit_body_inv : forall file w result w',
  unit_body net auth_id upload_slice file w = (Ok result, w') ->
  (exists entity, get_file net (sha1 file) w = (Ok (Some entity), w')
                  /\ result = None)
  \/ (exists w1, get_file net (sha1 file) w = (Ok None, w1)
                 /\ create_sequence net auth_id upload_slice file w1
                    = (Ok result, w'))
  \/ (exists w1 response data w2,
        get_file net (sha1 file) w = (Ok None, w1)
        /\ create_sequence net auth_id upload_slice file w1
           = (Raise (HTTPStatusError response), w2)
        /\ json response = Some data
        /\ w' = logged w2 (ErrorServerRespond (status_code response) data)
        /\ result = None).
Proof.
  intros file w result w'. unfold unit_body, bind, try_except.
  destruct (get_file net (sha1 file) w) as [[[entity|]|e] w1] eqn:E1;
    [| |discriminate].
  - unfold ret. intros E; inversion E; subst. left. eauto.
  - destruct (create_sequence net auth_id upload_slice file w1)
      as [[r|e] w2] eqn:Ec.
    + intros E; inversion E; subst. right; left. eauto.
    + destruct e; simpl; try discriminate.
      unfold response_json, or_raise, bind, ret, raise, log.
      destruct (json response) as [data|] eqn:Hj; simpl; [|discriminate].
      intros E; inversion E; subst. right; right.
      exists w1, response, data, w2. auto.
Qed.

(** The handler of the inner [try] raising while it formats its log line:
    the exception leaves the outer [try] block. *)
Lemma unit_body_handler_reraises : forall file w w1 response w2 e w',
  get_file net (sha1 file) w = (Ok None, w1) ->
  create_sequence net auth_id upload_slice file w1
    = (Raise (HTTPStatusError response), w2) ->
  response_json response w2 = (Raise e, w') ->
  unit_body net auth_id upload_slice file w = (Raise e, w').
Proof.
  intros file w w1 response w2 e w' E1 E2 E3.
  unfold unit_body, bind, try_except. rewrite E1, E2. simpl.
  unfold bind. rewrite E3. reflexivity.
Qed.

(** A creation sequence that succeeds ends the outer [try] block with the
    created dialogs. *)
Lemma unit_body_created : forall file w w1 created w2 entities w',
  get_file net (sha1 file) w = (Ok None, w1) ->
  upload_file net auth_id file w1 = (Ok created, w2) ->
  upload_dialogs net auth_id upload_slice (entity_id created)
    (dialogs file) None w2 = (Ok entities, w') ->
  unit_body net auth_id upload_slice file w = (Ok (Some entities), w').
Proof.
  intros file w w1 created w2 entities w' E1 E2 E3.
  unfold unit_body, bind, try_except. rewrite E1.
  rewrite create_sequence_returns
    with (created := created) (w1 := w2) (entities := entities) (w' := w');
    auto.
Qed.

(** The outer [try] block never raises a status error: the lookup turns it
    into absence and the inner handler catches it. *)
Lemma unit_body_no_status_error : forall file w e w',
  unit_body net auth_id upload_slice file w = (Raise e, w') ->
  is_http_status_error e = false.
Proof.
  intros file w e w'. unfold unit_body, bind, try_except.
  destruct (get_file net (sha1 file) w) as [[[entity|]|e0] w1] eqn:E1.
  - unfold ret. discriminate.
  - destruct (create_sequence net auth_id upload_slice file w1)
      as [[r|e0] w2]; [discriminate|].
    destruct e0; simpl; try (intros E; inversion E; reflexivity).
    unfold response_json, or_raise, bind, ret, raise, log.
    destruct (json response); intros E; inversion E; reflexivity.
  - intros E; inversion E; subst. destruct e; try reflexivity.
    exfalso. exact (get_file_no_status_error net (sha1 file) w response w' E1).
Qed.

End UploadUnit.

Section UploadUnitClaims.
Context `{Models}.
Variable net : Network.
Variable auth_id : UserId.
Variable upload_slice : Z.

(** C2: when the existence lookup returns an entity for the record's
    content hash, [upload_subtitles] returns normally (a skip, not a
    failure) and the only call it has issued is the lookup itself: no
    create-file call and no create-dialogs call. *)
Theorem dedup_issues_no_create : forall file w entity w1,
  get_file net (sha1 file) w = (Ok (Some entity), w1) ->
  upload_subtitles net auth_id upload_slice file w = (Ok None, w1) /\
  sent w1 = sent w ++ [GetFileBySha1 (sha1 file)].
Proof.
  intros file w entity w1 E. split.
  - apply unit_skipped with (entity := entity). exact E.
  - apply get_file_sent with (net := net) (result := Ok (Some entity)).
    exact E.
Qed.

(** C8: an exception other than a status error raised at any stage of the
    unit (by the lookup, by the file creation, by the dialog creation, or
    by the handler of a status error while it formats its log line, or in
    any other way by the outer [try] block) is not swallowed:
    [upload_subtitles] logs it with [logger.exception], whose severity is
    higher than that of every other line the module writes, and raises it
    again.  What is raised is never a status error. *)
Theorem unexpected_exception_reraised : forall file w e w',
  (get_file net (sha1 file) w = (Raise e, w')
   \/ (exists w1,
         get_file net (sha1 file) w = (Ok None, w1) /\
         upload_file net auth_id file w1 = (Raise e, w') /\
         is_http_status_error e = false)
   \/ (exists w1 created w2,
         get_file net (sha1 file) w = (Ok None, w1) /\
         upload_file net auth_id file w1 = (Ok created, w2) /\
         upload_dialogs net auth_id upload_slice (entity_id created)
           (dialogs file) None w2 = (Raise e, w') /\
         is_http_status_error e = false)
   \/ (exists w1 response w2,
         get_file net (sha1 file) w = (Ok None, w1) /\
         create_sequence net auth_id upload_slice file w1
           = (Raise (HTTPStatusError response), w2) /\
         response_json response w2 = (Raise e, w'))
   \/ unit_body net auth_id upload_slice file w = (Raise e, w')) ->
  upload_subtitles net auth_id upload_slice file w
    = (Raise e, logged w' (ExceptionOccurred e))
  /\ method_of (ExceptionOccurred e) = logger_exception
  /\ (forall r : LogRecord,
        method_of r <> logger_exception ->
        (severity (method_of r) < severity (method_of (ExceptionOccurred e)))%nat)
  /\ is_http_status_error e = false.
Proof.
  intros file w e w' Hstage.
  assert (Hbody : unit_body net auth_id upload_slice file w = (Raise e, w')).
  { destruct Hstage
      as [E | [[w1 [E1 [E2 He]]] | [[w1 [created [w2 [E1 [E2 [E3 He]]]]]]
         | [[w1 [response [w2 [E1 [E2 E3]]]]] | E]]]].
    - apply unit_body_lookup_raises. exact E.
    - apply unit_body_creation_raises with (w1 := w1); auto.
      apply create_sequence_file_raises. exact E2.
    - apply unit_body_creation_raises with (w1 := w1); auto.
      apply create_sequence_dialogs_raise with (created := created) (w1 := w2);
        assumption.
    - apply unit_body_handler_reraises
        with (w1 := w1) (response := response) (w2 := w2); assumption.
    - exact E. }
  split; [apply unit_reraises; exact Hbody|].
  split; [reflexivity|]. split.
  - intros r Hr. destruct r; simpl in *; try lia. congruence.
  - exact (unit_body_no_status_error net auth_id upload_slice file w e w'
             Hbody).
Qed.

(** C10: [upload_subtitles] returns [None] when the record is skipped by
    the dedup check, and also when a status error of the creation sequence
    has been contained, so that the return value does not tell the two
    apart; these are the only cases in which it returns [None].  When the
    lookup finds nothing and both creations succeed, it returns the list of
    dialog entities that [upload_dialogs] returned, and it returns a list
    in that case only. *)
Theorem upload_subtitles_return_value : forall file w,
  (forall entity w1,
      get_file net (sha1 file) w = (Ok (Some entity), w1) ->
      fst (upload_subtitles net auth_id upload_slice file w) = Ok None)
  /\ (forall w1 response data w2,
      get_file net (sha1 file) w = (Ok None, w1) ->
      create_sequence net auth_id upload_slice file w1
        = (Raise (HTTPStatusError response), w2) ->
      json response = Some data ->
      upload_subtitles net auth_id upload_slice file w
        = (Ok None,
           logged w2 (ErrorServerRespond (status_code response) data)))
  /\ (forall entities w',
      upload_subtitles net auth_id upload_slice file w
        = (Ok (Some entities), w') ->
      exists w1 created w2,
        get_file net (sha1 file) w = (Ok None, w1) /\
        upload_file net auth_id file w1 = (Ok created, w2) /\
        upload_dialogs net auth_id upload_slice (entity_id created)
          (dialogs file) None w2 = (Ok entities, w'))
  /\ (forall w1 created w2 entities w',
      get_file net (sha1 file) w = (Ok None, w1) ->
      upload_file net auth_id file w1 = (Ok created, w2) ->
      upload_dialogs net auth_id upload_slice (entity_id created)
        (dialogs file) None w2 = (Ok entities, w') ->
      upload_subtitles net auth_id upload_slice file w
        = (Ok (Some entities), w'))
  /\ (forall w',
      upload_subtitles net auth_id upload_slice file w = (Ok None, w') ->
      (exists entity,
          get_file net (sha1 file) w = (Ok (Some entity), w'))
      \/ (exists w1 response data w2,
            get_file net (sha1 file) w = (Ok None, w1) /\
            create_sequence net auth_id upload_slice file w1
              = (Raise (HTTPStatusError response), w2) /\
            json response = Some data /\
            w' = logged w2 (ErrorServerRespond (status_code response) data))).
Proof.
  intros file w. split; [|split; [|split; [|split]]].
  - intros entity w1 E.
    rewrite unit_skipped with (entity := entity) (w1 := w1); auto.
  - intros w1 response data w2 E1 E2 Hj. apply unit_returns.
    apply unit_body_contained with (w1 := w1); assumption.
  - intros entities w' E. apply unit_returns_inv in E.
    apply unit_body_inv in E.
    destruct E as [[entity [_ Hr]] | [[w1 [E1 E2]] | E]].
    + discriminate Hr.
    + apply create_sequence_inv in E2.
      destruct E2 as [created [w2 [ents [Ef [Ed Hr]]]]].
      inversion Hr; subst. exists w1, created, w2. auto.
    + destruct E as [w1 [response [data [w2 [_ [_ [_ [_ Hr]]]]]]]].
      discriminate Hr.
  - intros w1 created w2 entities w' E1 E2 E3. apply unit_returns.
    apply unit_body_created with (w1 := w1) (created := created) (w2 := w2);
      assumption.
  - intros w' E. apply unit_returns_inv in E. apply unit_body_inv in E.
    destruct E as [[entity [E1 _]] | [[w1 [E1 E2]] | E]].
    + left. exists entity. exact E1.
    + apply create_sequence_inv in E2.
      destruct E2 as [created [w2 [ents [_ [_ Hr]]]]]. discriminate Hr.
    + destruct E as [w1 [response [data [w2 [E1 [E2 [Hj [Hw _]]]]]]]].
      right. exists w1, response, data, w2. auto.
Qed.

(** C9: [upload_file] asserts that the record's [series_id] is non-empty
    (true in Python's sense: not [None], not zero, not the empty string).
    With such a [series_id] it never raises [AssertionError]; without it,
    it raises [AssertionError] at once, before any call is issued. *)
Theorem upload_file_precondition : forall file w,
  (Py.truthy (series_id file) = true ->
   forall w', upload_file net auth_id file w <> (Raise AssertionError, w'))
  /\ (Py.truthy (series_id file) = false ->
      upload_file net auth_id file w = (Raise AssertionError, w)).
Proof.
  intros file w. unfold upload_file. split; intros Hs; rewrite Hs.
  - intros w'. unfold_coro. simpl.
    match goal with |- context [net ?h ?q] => destruct (net h q) as [r|reason] end;
      simpl; [|congruence].
    destruct (is_success r); simpl; [|congruence].
    destruct (json r) as [data|]; simpl; [|congruence].
    destruct (FileRead_parse_obj data); unfold ret, raise; congruence.
  - reflexivity.
Qed.

End UploadUnitClaims.

Lemma dedup_issues_no_create_witness :
  let file := Scenario.record "abc123" Scenario.five in
  let w1 := {| sent := [GetFileBySha1 "abc123"];
               logs := [DebugFileExisted "abc123"] |} in
  get_file Scenario.known (sha1 file) Scenario.nothing = (Ok (Some "f1"%string), w1)
  /\ upload_subtitles Scenario.known 1 400 file Scenario.nothing = (Ok None, w1)
  /\ sent w1 = [GetFileBySha1 "abc123"].
Proof.
  intros file w1. split; [reflexivity|].
  apply (dedup_issues_no_create Scenario.known 1 400 file Scenario.nothing
           "f1"%string). reflexivity.
Defined.

Lemma unexpected_exception_reraised_witness :
  let w1 := {| sent := [GetFileBySha1 "0a1b"]; logs := [] |} in
  let file := Scenario.record "def456" Scenario.five in
  upload_subtitles Scenario.fresh 1 400 Scenario.orphan Scenario.nothing
    = (Raise AssertionError, logged w1 (ExceptionOccurred AssertionError))
  /\ fst (upload_subtitles Scenario.failing 1 400 file Scenario.nothing)
     = Raise JSONDecodeError
  /\ (severity logger_error < severity logger_exception)%nat.
Proof.
  intros w1 file. split; [|split].
  - apply (unexpected_exception_reraised Scenario.fresh 1 400 Scenario.orphan
             Scenario.nothing AssertionError w1).
    right; left. exists w1. repeat split.
  - rewrite (proj1 (unexpected_exception_reraised Scenario.failing 1 400 file
                      Scenario.nothing JSONDecodeError
                      (snd (upload_file Scenario.failing 1 file
                              {| sent := [GetFileBySha1 "def456"];
                                 logs := [] |}))
                      (or_intror (or_intror (or_intror (or_introl
                         (ex_intro _ {| sent := [GetFileBySha1 "def456"];
                                        logs := [] |}
                            (ex_intro _ Scenario.server_error
                               (ex_intro _ _
                                  (conj eq_refl (conj eq_refl eq_refl)))))))))));
      reflexivity.
  - apply (proj1 (proj2 (proj2
             (unexpected_exception_reraised Scenario.fresh 1 400
                Scenario.orphan Scenario.nothing AssertionError w1
                (or_intror (or_introl
                   (ex_intro _ w1 (conj eq_refl (conj eq_refl eq_refl)))))))))
      with (r := ErrorServerRespond 500 JNull).
    discriminate.
Defined.

Lemma upload_subtitles_return_value_witness :
  let file := Scenario.record "def456" Scenario.five in
  fst (upload_subtitles Scenario.known 1 2 file Scenario.nothing) = Ok None
  /\ fst (upload_subtitles Scenario.rejecting 1 2 file Scenario.nothing) = Ok None
  /\ (exists w1 created w2,
        get_file Scenario.fresh (sha1 file) Scenario.nothing = (Ok None, w1) /\
        upload_file Scenario.fresh 1 file w1 = (Ok created, w2) /\
        fst (upload_dialogs Scenario.fresh 1 2 (entity_id created)
               (dialogs file) None w2) = Ok Scenario.five)
  /\ fst (upload_subtitles Scenario.fresh 1 2 file Scenario.nothing)
     = Ok (Some Scenario.five)
  /\ ((exists entity,
         get_file Scenario.rejecting (sha1 file) Scenario.nothing
         = (Ok (Some entity),
            snd (upload_subtitles Scenario.rejecting 1 2 file Scenario.nothing)))
      \/ (exists w1 response data w2,
            get_file Scenario.rejecting (sha1 file) Scenario.nothing
              = (Ok None, w1) /\
            create_sequence Scenario.rejecting 1 2 file w1
              = (Raise (HTTPStatusError response), w2) /\
            json response = Some data /\
            snd (upload_subtitles Scenario.rejecting 1 2 file Scenario.nothing)
              = logged w2 (ErrorServerRespond (status_code response) data))).
Proof.
  intros file. split; [|split; [|split; [|split]]].
  - apply (proj1 (upload_subtitles_return_value Scenario.known 1 2 file
                    Scenario.nothing)
             "f1"%string
             {| sent := [GetFileBySha1 "def456"];
                logs := [DebugFileExisted "def456"] |}).
    reflexivity.
  - rewrite (proj1 (proj2 (upload_subtitles_return_value Scenario.rejecting 1 2
                             file Scenario.nothing))
               {| sent := [GetFileBySha1 "def456"]; logs := [] |}
               Scenario.rejected
               (JObj [("detail"%string, JStr "invalid")])
               (snd (upload_file Scenario.rejecting 1 file
                       {| sent := [GetFileBySha1 "def456"]; logs := [] |})));
      reflexivity.
  - destruct (proj1 (proj2 (proj2 (upload_subtitles_return_value Scenario.fresh
                                     1 2 file Scenario.nothing)))
                Scenario.five
                (snd (upload_subtitles Scenario.fresh 1 2 file Scenario.nothing))
                eq_refl)
      as [w1 [created [w2 [E1 [E2 E3]]]]].
    exists w1, created, w2. rewrite E3. auto.
  - rewrite (proj1 (proj2 (proj2 (proj2
               (upload_subtitles_return_value Scenario.fresh 1 2 file
                  Scenario.nothing))))
               {| sent := [GetFileBySha1 "def456"]; logs := [] |}
               "f1"%string
               (snd (upload_file Scenario.fresh 1 file
                       {| sent := [GetFileBySha1 "def456"]; logs := [] |}))
               Scenario.five
               (snd (upload_subtitles Scenario.fresh 1 2 file
                       Scenario.nothing)));
      reflexivity.
  - apply (proj2 (proj2 (proj2 (proj2
             (upload_subtitles_return_value Scenario.rejecting 1 2 file
                Scenario.nothing))))).
    reflexivity.
Defined.

Lemma upload_file_precondition_witness :
  (forall w', upload_file Scenario.fresh 1 (Scenario.record "def456" Scenario.five)
                Scenario.nothing <> (Raise AssertionError, w'))
  /\ upload_file Scenario.fresh 1 Scenario.orphan Scenario.nothing
     = (Raise AssertionError, Scenario.nothing).
Proof.
  split.
  - apply (proj1 (upload_file_precondition Scenario.fresh 1
                    (Scenario.record "def456" Scenario.five) Scenario.nothing)).
    reflexivity.
  - apply (proj2 (upload_file_precondition Scenario.fresh 1 Scenario.orphan
                    Scenario.nothing)).
    reflexivity.
Defined.

(** The status error itself never leaves the unit: what can leave it on a
    rejected creation is the exception raised while the handler formats its
    log line. *)
Lemma status_error_never_leaves `{Models} :
  forall net auth_id upload_slice file w response w',
    upload_subtitles net auth_id upload_slice file w
      <> (Raise (HTTPStatusError response), w').
Proof.
  intros net auth_id upload_slice file w response w'.
  unfold upload_subtitles, try_except.
  destruct (unit_body net auth_id upload_slice file w) as [[r|e] w1] eqn:E;
    simpl; [congruence|].
  unfold bind, log, raise. intros Habs. inversion Habs; subst. clear Habs.
  revert E. unfold unit_body, bind, try_except.
  destruct (get_file net (sha1 file) w) as [[[entity|]|e] w2] eqn:E1.
  - unfold ret. congruence.
  - destruct (create_sequence net auth_id upload_slice file w2)
      as [[r|e] w3]; [congruence|].
    destruct e; simpl; try congruence.
    unfold response_json, or_raise, bind, ret, raise, log.
    destruct (json response0); congruence.
  - intros E. inversion E; subst.
    exact (get_file_no_status_error net (sha1 file) w response w1 E1).
Qed.

(** C4, at a failing input: the record is new and the file creation is
    answered with status 500 and a payload that is not JSON.  The status
    error is caught by the inner handler, but formatting the log line calls
    [response.json()], which raises; that exception reaches the outer
    handler and is raised out of [upload_subtitles].  No line with the
    status code and body is logged, and the unit does not end normally. *)
Theorem text_error_body_leaves_unit :
  let file := Scenario.record "def456" Scenario.five in
  let create := PostFile (@mkFileCreate Scenario.models "ep01.ass" "def456"
                            (Py.PyInt 7) "/subs/ep01.ass" 1) in
  Scenario.failing [GetFileBySha1 "def456"] create
    = Replied {| status_code := 500; json := None |}
  /\ upload_file Scenario.failing 1 file
       {| sent := [GetFileBySha1 "def456"]; logs := [] |}
     = (Raise (HTTPStatusError {| status_code := 500; json := None |}),
        {| sent := [GetFileBySha1 "def456"; create]; logs := [] |})
  /\ upload_subtitles Scenario.failing 1 400 file Scenario.nothing
     = (Raise JSONDecodeError,
        {| sent := [GetFileBySha1 "def456"; create];
           logs := [ExceptionOccurred JSONDecodeError] |}).
Proof.
  intros file create. repeat split.
Qed.

(** Scenario 2 of the specification: a new record with three dialogs and
    slice size 400 gives one lookup, one file creation and one bulk call
    with the three dialogs, and the unit returns the created dialogs. *)
Example new_record_single_chunk :
  let file := Scenario.record "def456" ["a"; "b"; "c"]%string in
  exists create chunk,
    upload_subtitles Scenario.fresh 1 400 file Scenario.nothing
    = (Ok (Some ["a"; "b"; "c"]%string),
       {| sent := [GetFileBySha1 "def456"; PostFile create;
                   PostDialogsBulk 30 chunk];
          logs := [DebugFileSynced "ep01.ass" "def456";
                   DebugDialogsSynced "f1" 0 400 3] |})
    /\ map dc_content chunk = ["a"; "b"; "c"]%string.
Proof. intros file. do 2 eexists. split; reflexivity. Qed.

(** A file creation rejected with a JSON body is contained: the status code
    and the body are logged and the unit returns [None]. *)
Example rejected_creation_contained :
  let file := Scenario.record "def456" Scenario.five in
  exists create,
    upload_subtitles Scenario.rejecting 1 400 file Scenario.nothing
    = (Ok None,
       {| sent := [GetFileBySha1 "def456"; PostFile create];
          logs := [ErrorServerRespond 422
                     (JObj [("detail"%string, JStr "invalid")])] |}).
Proof. intros file. eexists. reflexivity. Qed.

(** A bulk call answered with a document that is not iterable: the
    [TypeError] is logged by the outer handler and raised again. *)
Example garbled_reply_reraised :
  let file := Scenario.record "def456" Scenario.five in
  fst (upload_subtitles Scenario.garbled 1 2 file Scenario.nothing)
    = Raise TypeError
  /\ last (logs (snd (upload_subtitles Scenario.garbled 1 2 file
                        Scenario.nothing)))
          (DebugFileExisted EmptyString)
     = ExceptionOccurred TypeError.
Proof. intros file. split; reflexivity. Qed.

(** ** Slices and ranges *)

Section SliceFacts.
Context {A : Type}.

Lemma firstn_add : forall (a b : nat) (l : list A),
  firstn (a + b) l = firstn a l ++ firstn b (skipn a l).
Proof.
  induction a as [|a IH]; intros b l.
  - reflexivity.
  - destruct l as [|x l]; simpl.
    + rewrite firstn_nil. reflexivity.
    + rewrite IH. reflexivity.
Qed.

Lemma firstn_min_length : forall (n : nat) (l : list A),
  firstn (Nat.min n (length l)) l = firstn n l.
Proof.
  intros n l. destruct (Nat.le_ge_cases n (length l)) as [Hle|Hge].
  - rewrite Nat.min_l by exact Hle. reflexivity.
  - rewrite Nat.min_r by exact Hge.
    rewrite firstn_all, firstn_all2 by exact Hge. reflexivity.
Qed.

(** A slice with natural bounds [a] and [a + s] takes [s] items after
    skipping [a]. *)
Lemma slice_firstn_skipn : forall (l : list A) (a s : nat),
  Py.slice l (Z.of_nat a) (Z.of_nat a + Z.of_nat s) = firstn s (skipn a l).
Proof.
  intros l a s. unfold Py.slice, Py.clamp.
  replace (Z.of_nat a <? 0) with false by (symmetry; apply Z.ltb_ge; lia).
  replace (Z.of_nat a + Z.of_nat s <? 0) with false
    by (symmetry; apply Z.ltb_ge; lia).
  destruct (Nat.le_gt_cases a (length l)) as [Hle|Hgt].
  - rewrite (Z.min_l (Z.of_nat a)) by lia. rewrite Nat2Z.id.
    rewrite <- (firstn_min_length s (skipn a l)). rewrite length_skipn.
    f_equal. lia.
  - rewrite (Z.min_r (Z.of_nat a)) by lia. rewrite Nat2Z.id.
    rewrite skipn_all, (skipn_all2 l) by lia.
    rewrite !firstn_nil. reflexivity.
Qed.

(** Consecutive slices of [s] items, from the [a]-th on, put together. *)
Lemma concat_consecutive : forall (s : nat) (l : list A) (n a : nat),
  concat (map (fun k => firstn s (skipn (k * s) l)) (seq a n))
  = firstn (n * s) (skipn (a * s) l).
Proof.
  intros s l. induction n as [|n IH]; intros a.
  - reflexivity.
  - simpl seq. simpl map. simpl concat. rewrite IH.
    replace (S n * s)%nat with (s + n * s)%nat by lia.
    rewrite firstn_add, skipn_skipn.
    replace (s + a * s)%nat with (S a * s)%nat by lia. reflexivity.
Qed.

End SliceFacts.

(** [ceil_div len size] is the ceiling of [len / size]: the least number of
    slices of [size] items that cover [len] items. *)
Lemma ceil_div_spec : forall len size,
  1 <= size -> 0 <= len ->
  len <= ceil_div len size * size < len + size.
Proof.
  intros len size Hs Hl. unfold ceil_div.
  pose proof (Z.div_mod (len + size - 1) size ltac:(lia)) as Hdm.
  pose proof (Z.mod_pos_bound (len + size - 1) size ltac:(lia)) as Hb.
  nia.
Qed.

Lemma ceil_div_nonneg : forall len size,
  1 <= size -> 0 <= len -> 0 <= ceil_div len size.
Proof.
  intros len size Hs Hl. unfold ceil_div. apply Z.div_pos; lia.
Qed.

(** For a positive step, [range(0, len, size)] has [ceil(len / size)]
    elements, the multiples of [size] in increasing order. *)
Lemma range_offsets : forall len size,
  1 <= size -> 0 <= len ->
  Py.range 0 len size
  = Some (map (fun k => Z.of_nat k * size)
              (seq 0 (Z.to_nat (ceil_div len size)))).
Proof.
  intros len size Hs Hl. unfold Py.range, Py.range_length.
  replace (size =? 0) with false by (symmetry; apply Z.eqb_neq; lia).
  replace (0 <? size) with true by (symmetry; apply Z.ltb_lt; lia).
  f_equal.
  assert (Hn : (if 0 <? len then (len - 0 - 1) / size + 1 else 0)
               = ceil_div len size).
  { unfold ceil_div. destruct (0 <? len) eqn:Hpos.
    - apply Z.ltb_lt in Hpos.
      replace (len + size - 1) with (len - 0 - 1 + 1 * size) by lia.
      rewrite Z.div_add by lia. reflexivity.
    - apply Z.ltb_ge in Hpos. assert (len = 0) by lia. subst len.
      rewrite Z.div_small by lia. reflexivity. }
  rewrite Hn. apply map_ext. intros k. lia.
Qed.

(** ** The partition into chunks *)

Section Partition.
Context `{Models}.
Variable bulk : list DialogCreate.
Variable size : Z.
Hypothesis size_pos : 1 <= size.

Lemma chunk_at_nat : forall k : nat,
  chunk_at bulk size (Z.of_nat k * size)
  = firstn (Z.to_nat size) (skipn (k * Z.to_nat size) bulk).
Proof.
  intros k. unfold chunk_at.
  rewrite <- (slice_firstn_skipn bulk (k * Z.to_nat size) (Z.to_nat size)).
  rewrite Nat2Z.inj_mul, Z2Nat.id by lia. reflexivity.
Qed.

Lemma chunks_of_length :
  Z.of_nat (length (chunks_of bulk size))
  = ceil_div (Z.of_nat (length bulk)) size.
Proof.
  unfold chunks_of. rewrite length_map, length_seq.
  apply Z2Nat.id. apply ceil_div_nonneg; lia.
Qed.

Lemma chunks_of_bounded :
  Forall (fun chunk => Z.of_nat (length chunk) <= size) (chunks_of bulk size).
Proof.
  apply Forall_forall. intros chunk Hin. unfold chunks_of in Hin.
  apply in_map_iff in Hin. destruct Hin as [k [Hk _]]. subst chunk.
  rewrite chunk_at_nat.
  pose proof (firstn_le_length (Z.to_nat size)
                (skipn (k * Z.to_nat size) bulk)) as Hle.
  lia.
Qed.

Lemma chunks_of_concat : concat (chunks_of bulk size) = bulk.
Proof.
  unfold chunks_of.
  rewrite (map_ext _ (fun k => firstn (Z.to_nat size)
                                 (skipn (k * Z.to_nat size) bulk)))
    by exact chunk_at_nat.
  rewrite concat_consecutive. simpl skipn.
  apply firstn_all2.
  pose proof (ceil_div_spec (Z.of_nat (length bulk)) size size_pos
                ltac:(lia)) as [Hcover _].
  pose proof (ceil_div_nonneg (Z.of_nat (length bulk)) size size_pos
                ltac:(lia)) as Hq.
  apply Nat2Z.inj_le. rewrite Nat2Z.inj_mul, !Z2Nat.id by lia. exact Hcover.
Qed.

(** The k-th chunk is the slice at offset [k * size]. *)
Lemma chunks_of_nth : forall k : nat,
  (k < length (chunks_of bulk size))%nat ->
  nth k (chunks_of bulk size) []
  = Py.slice bulk (Z.of_nat k * size) (Z.of_nat k * size + size).
Proof.
  intros k Hk. unfold chunks_of in *. rewrite length_map, length_seq in Hk.
  rewrite (nth_indep _ [] (chunk_at bulk size (Z.of_nat 0 * size)))
    by (rewrite length_map, length_seq; exact Hk).
  rewrite (map_nth (fun k => chunk_at bulk size (Z.of_nat k * size))).
  rewrite seq_nth by exact Hk. reflexivity.
Qed.

(** The chunks are the slices at the offsets that [range] enumerates. *)
Lemma chunks_of_range :
  exists offsets,
    Py.range 0 (Z.of_nat (length bulk)) size = Some offsets /\
    chunks_of bulk size = map (chunk_at bulk size) offsets.
Proof.
  eexists. split.
  - apply range_offsets; lia.
  - unfold chunks_of. rewrite map_map. reflexivity.
Qed.

End Partition.

(** ** The bulk creation of dialogs *)

Section UploadDialogs.
Context `{Models}.
Variable net : Network.
Variable auth_id : UserId.
Variable upload_slice : Z.

Lemma chunk_entities_inv : forall response entities,
  chunk_entities response = Some entities ->
  exists data items,
    json response = Some data /\ json_iter data = Some items /\
    parse_dialogs items = Some entities.
Proof.
  intros response entities. unfold chunk_entities.
  destruct (json response) as [data|]; [|discriminate].
  destruct (json_iter data) as [items|] eqn:Hi; [|discriminate].
  intros Hp. exists data, items. auto.
Qed.

(** One iteration of the loop whose call succeeds. *)
Lemma submit_chunk_served : forall file_id bulk size b w response entities,
  net (sent w) (PostDialogsBulk 30 (chunk_at bulk size b)) = Replied response ->
  is_success response = true ->
  chunk_entities response = Some entities ->
  submit_chunk net file_id bulk size b w
  = (Ok entities,
     {| sent := sent w ++ [PostDialogsBulk 30 (chunk_at bulk size b)];
        logs := logs w ++ [DebugDialogsSynced file_id b (b + size)
                             (Z.of_nat (length bulk))] |}).
Proof.
  intros file_id bulk size b w response entities Hnet Hok Hents.
  apply chunk_entities_inv in Hents.
  destruct Hents as [data [items [Hj [Hi Hp]]]].
  unfold submit_chunk, chunk_at in *. unfold_coro.
  rewrite Hnet. simpl. rewrite Hok. simpl. rewrite Hj. simpl.
  rewrite Hi. simpl. rewrite Hp. reflexivity.
Qed.

(** One iteration of the loop whose call fails. *)
Lemma submit_chunk_failed : forall file_id bulk size b w e,
  call_failure (net (sent w) (PostDialogsBulk 30 (chunk_at bulk size b)))
    = Some e ->
  submit_chunk net file_id bulk size b w
  = (Raise e,
     {| sent := sent w ++ [PostDialogsBulk 30 (chunk_at bulk size b)];
        logs := logs w |}).
Proof.
  intros file_id bulk size b w e. unfold submit_chunk, chunk_at, call_failure.
  unfold_coro.
  destruct (net (sent w) (PostDialogsBulk 30 (Py.slice bulk b (b + size))))
    as [response|reason]; simpl.
  - destruct (is_success response); [discriminate|].
    intros E; inversion E; subst. reflexivity.
  - intros E; inversion E; subst. reflexivity.
Qed.

(** The loop over offsets whose calls are all served. *)
Lemma upload_loop_served : forall file_id bulk size offsets responses w replies,
  served net (sent w) (map (chunk_at bulk size) offsets) replies ->
  upload_loop net file_id bulk size offsets responses w
  = (Ok (responses ++ concat replies),
     {| sent := sent w
                ++ map (PostDialogsBulk 30) (map (chunk_at bulk size) offsets);
        logs := logs w
                ++ map (fun b => DebugDialogsSynced file_id b (b + size)
                                   (Z.of_nat (length bulk))) offsets |}).
Proof.
  intros file_id bulk size.
  induction offsets as [|b rest IH]; intros responses w replies Hserved.
  - inversion Hserved; subst. simpl. unfold ret.
    rewrite !app_nil_r. destruct w; reflexivity.
  - simpl in Hserved. inversion Hserved; subst. simpl upload_loop.
    unfold bind.
    rewrite submit_chunk_served with (response := response)
                                     (entities := entities); auto.
    rewrite IH with (replies := replies0); [|assumption].
    simpl. rewrite <- !app_assoc. reflexivity.
Qed.

(** The loop stops at the first call that fails: the exception goes up and
    no later offset is visited. *)
Lemma upload_loop_failed : forall file_id bulk size before b after responses w
                                  replies e,
  served net (sent w) (map (chunk_at bulk size) before) replies ->
  call_failure
    (net (sent w ++ map (PostDialogsBulk 30) (map (chunk_at bulk size) before))
         (PostDialogsBulk 30 (chunk_at bulk size b))) = Some e ->
  exists w',
    upload_loop net file_id bulk size (before ++ b :: after) responses w
      = (Raise e, w') /\
    sent w' = sent w ++ map (PostDialogsBulk 30)
                          (map (chunk_at bulk size) (before ++ [b])).
Proof.
  intros file_id bulk size.
  induction before as [|b0 before IH];
    intros b after responses w replies e Hserved Hfail.
  - simpl in *. rewrite app_nil_r in Hfail. unfold bind.
    rewrite submit_chunk_failed with (e := e) by exact Hfail.
    eexists. split; reflexivity.
  - simpl in Hserved. inversion Hserved; subst. simpl app.
    simpl upload_loop. unfold bind.
    rewrite submit_chunk_served with (response := response)
                                     (entities := entities); auto.
    edestruct (IH b after (responses ++ entities)
                 {| sent := sent w ++ [PostDialogsBulk 30 (chunk_at bulk size b0)];
                    logs := logs w ++ [DebugDialogsSynced file_id b0 (b0 + size)
                                         (Z.of_nat (length bulk))] |}
                 replies0 e) as [w' [Hrun Hsent]].
    + assumption.
    + simpl. rewrite <- app_assoc. exact Hfail.
    + exists w'. split; [exact Hrun|].
      rewrite Hsent. simpl. rewrite <- app_assoc. reflexivity.
Qed.

End UploadDialogs.

Section UploadDialogsClaims.
Context `{Models}.
Variable net : Network.
Variable auth_id : UserId.
Variable upload_slice : Z.

(** C3: for a list of [L] dialogs and a slice size [S >= 1], the chunks
    are the slices at the offsets [0], [S], [2 * S], ...: there are
    [ceil(L / S)] of them, each holds at most [S] dialogs, and put together
    in order they give back the dialogs in input order.  When the remote
    service serves every chunk, [upload_dialogs] submits exactly these
    chunks, in that order, and returns the concatenation, in submission
    order, of the entities returned for each chunk. *)
Theorem upload_dialogs_chunked : forall file_id dialogs slice w replies,
  let size := effective_slice upload_slice slice in
  let bulk := bulk_data auth_id file_id dialogs in
  let chunks := chunks_of bulk size in
  1 <= size ->
  served net (sent w) chunks replies ->
  Z.of_nat (length chunks) = ceil_div (Z.of_nat (length dialogs)) size
  /\ (forall k : nat, (k < length chunks)%nat ->
        nth k chunks []
        = Py.slice bulk (Z.of_nat k * size) (Z.of_nat k * size + size))
  /\ Forall (fun chunk => Z.of_nat (length chunk) <= size) chunks
  /\ concat chunks = bulk
  /\ exists w',
       upload_dialogs net auth_id upload_slice file_id dialogs slice w
         = (Ok (concat replies), w')
       /\ sent w' = sent w ++ map (PostDialogsBulk 30) chunks.
Proof.
  intros file_id dialogs slice w replies size bulk chunks Hsize Hserved.
  split; [|split; [|split; [|split]]].
  - unfold chunks. rewrite chunks_of_length by exact Hsize.
    unfold bulk, bulk_data. rewrite length_map. reflexivity.
  - intros k Hk. apply chunks_of_nth; assumption.
  - apply chunks_of_bounded. exact Hsize.
  - apply chunks_of_concat. exact Hsize.
  - destruct (chunks_of_range bulk size Hsize) as [offsets [Hrange Hchunks]].
    unfold upload_dialogs. fold bulk. fold size.
    unfold bind, or_raise. rewrite Hrange. unfold ret at 1.
    unfold chunks in *. rewrite Hchunks in *.
    rewrite upload_loop_served with (replies := replies) by exact Hserved.
    eexists. split; reflexivity.
Qed.

(** C7: when the calls for the first [k] chunks are served and the call
    for the next chunk fails, [upload_dialogs] raises the exception of that
    call, and the calls it has issued are exactly those for these [k + 1]
    chunks: nothing is issued after the failure, neither a compensating
    call for the chunks already created nor a call for a later chunk. *)
Theorem upload_dialogs_no_rollback : forall file_id dialogs slice w k replies e,
  let size := effective_slice upload_slice slice in
  let bulk := bulk_data auth_id file_id dialogs in
  let chunks := chunks_of bulk size in
  1 <= size ->
  (k < length chunks)%nat ->
  served net (sent w) (firstn k chunks) replies ->
  call_failure
    (net (sent w ++ map (PostDialogsBulk 30) (firstn k chunks))
         (PostDialogsBulk 30 (nth k chunks []))) = Some e ->
  exists w',
    upload_dialogs net auth_id upload_slice file_id dialogs slice w
      = (Raise e, w')
    /\ sent w' = sent w ++ map (PostDialogsBulk 30) (firstn (S k) chunks).
Proof.
  intros file_id dialogs slice w k replies e size bulk chunks Hsize Hk
         Hserved Hfail.
  destruct (chunks_of_range bulk size Hsize) as [offsets [Hrange Hchunks]].
  unfold chunks in *. rewrite Hchunks in *. rewrite length_map in Hk.
  (* the offsets before the failing one, the failing one, those after *)
  pose proof (firstn_skipn k offsets) as Hsplit.
  destruct (skipn k offsets) as [|b after] eqn:Hskip.
  { exfalso. apply (f_equal (@length Z)) in Hskip.
    rewrite length_skipn in Hskip. simpl in Hskip. lia. }
  assert (Hlen : length (firstn k offsets) = k)
    by (apply firstn_length_le; lia).
  assert (Hnth : nth k (map (chunk_at bulk size) offsets) []
                 = chunk_at bulk size b).
  { rewrite <- Hsplit at 1. rewrite map_app, app_nth2; rewrite length_map;
      [|lia].
    rewrite Hlen, Nat.sub_diag. reflexivity. }
  assert (Hfirst : firstn (S k) (map (chunk_at bulk size) offsets)
                   = map (chunk_at bulk size) (firstn k offsets ++ [b])).
  { rewrite <- Hsplit at 1. rewrite map_app, firstn_app, length_map, Hlen.
    rewrite firstn_all2 by (rewrite length_map; lia).
    replace (S k - k)%nat with 1%nat by lia.
    rewrite map_app. reflexivity. }
  rewrite Hnth in Hfail. rewrite Hfirst. rewrite firstn_map in Hserved, Hfail.
  destruct (upload_loop_failed net file_id bulk size (firstn k offsets) b after
              [] w replies e Hserved Hfail) as [w' [Hrun Hsent]].
  exists w'. split; [|exact Hsent].
  unfold upload_dialogs. fold bulk. fold size.
  unfold bind, or_raise. rewrite Hrange. unfold ret at 1.
  rewrite <- Hsplit. exact Hrun.
Qed.

End UploadDialogsClaims.

Lemma upload_dialogs_chunked_witness :
  let dialogs := map Scenario.dialog Scenario.five in
  let bulk := @bulk_data Scenario.models 1 "f1" dialogs in
  map (@length _) (chunks_of bulk 2) = [2; 2; 1]%nat
  /\ concat (chunks_of bulk 2) = bulk
  /\ exists w',
       upload_dialogs Scenario.fresh 1 400 "f1" dialogs (Some 2) Scenario.nothing
         = (Ok Scenario.five, w')
       /\ sent w' = map (PostDialogsBulk 30) (chunks_of bulk 2).
Proof.
  intros dialogs bulk.
  destruct (upload_dialogs_chunked Scenario.fresh 1 400 "f1" dialogs (Some 2)
              Scenario.nothing
              [["a"; "b"]; ["c"; "d"]; ["e"]]%string)
    as [_ [_ [_ [Hconcat Hrun]]]].
  - simpl. lia.
  - repeat (econstructor; try reflexivity).
  - split; [reflexivity|]. split; [exact Hconcat|exact Hrun].
Defined.

(** Scenario 3 of the specification: 850 dialogs with the default slice
    size 400 are submitted as three chunks of 400, 400 and 50 dialogs, in
    that order. *)
Example upload_dialogs_850_by_400 :
  let dialogs := map Scenario.dialog (repeat "x"%string 850) in
  map (fun q => match q with
                | PostDialogsBulk _ chunk => length chunk
                | _ => 0%nat
                end)
      (sent (snd (upload_dialogs Scenario.fresh 1 400 "f1" dialogs None
                    Scenario.nothing)))
  = [400; 400; 50]%nat.
Proof. vm_compute. reflexivity. Qed.

Lemma upload_dialogs_no_rollback_witness :
  let dialogs := map Scenario.dialog Scenario.five in
  let chunks := chunks_of (@bulk_data Scenario.models 1 "f1" dialogs) 2 in
  exists w',
    upload_dialogs Scenario.second_chunk_rejected 1 400 "f1" dialogs (Some 2)
      Scenario.nothing
      = (Raise (HTTPStatusError Scenario.rejected), w')
    /\ sent w' = map (PostDialogsBulk 30) (firstn 2 chunks).
Proof.
  intros dialogs chunks.
  apply (upload_dialogs_no_rollback Scenario.second_chunk_rejected 1 400 "f1"
           dialogs (Some 2) Scenario.nothing 1 [["a"; "b"]]%string
           (HTTPStatusError Scenario.rejected)).
  - simpl. lia.
  - vm_compute. lia.
  - repeat (econstructor; try reflexivity).
  - reflexivity.
Defined.

(** ** The orchestrator: slots and bounded concurrency *)

Section TaskLists.
Context `{Models}.

Lemma set_state_length : forall i st (l : list Task),
  length (set_state i st l) = length l.
Proof.
  intros i st l. revert i.
  induction l as [|t l IH]; intros [|i]; simpl; auto.
Qed.

Lemma set_state_same : forall i st (l : list Task) t,
  nth_error l i = Some t ->
  nth_error (set_state i st l) i
  = Some {| t_file := t_file t; t_state := st |}.
Proof.
  intros i st l. revert i.
  induction l as [|t0 l IH]; intros [|i] t Hnth; simpl in *;
    try discriminate.
  - inversion Hnth; subst. reflexivity.
  - apply IH. exact Hnth.
Qed.

Lemma set_state_other : forall i j st (l : list Task),
  j <> i -> nth_error (set_state i st l) j = nth_error l j.
Proof.
  intros i j st l. revert i j.
  induction l as [|t0 l IH]; intros [|i] [|j] Hneq; simpl; auto.
  - contradiction.
Qed.

(** Changing the state of one task changes a count by that task only. *)
Lemma set_state_count : forall (p : Task -> bool) i st (l : list Task) t,
  nth_error l i = Some t ->
  (length (filter p (set_state i st l)) + Nat.b2n (p t)
   = length (filter p l)
     + Nat.b2n (p {| t_file := t_file t; t_state := st |}))%nat.
Proof.
  intros p i st l. revert i.
  induction l as [|t0 l IH]; intros [|i] t Hnth; simpl in *;
    try discriminate.
  - inversion Hnth; subst.
    destruct (p t); destruct (p {| t_file := t_file t; t_state := st |});
      simpl; lia.
  - specialize (IH i t Hnth). destruct (p t0); simpl; lia.
Qed.

Lemma filter_all : forall (p : Task -> bool) (l : list Task),
  length (filter p l) = length l -> forall t, In t l -> p t = true.
Proof.
  intros p. induction l as [|t0 l IH]; intros Hlen t Hin.
  - destruct Hin.
  - simpl in Hlen. pose proof (filter_length_le p l) as Hle.
    destruct (p t0) eqn:Hp; simpl in Hlen.
    + destruct Hin as [->|Hin]; [exact Hp|]. apply IH; [lia|exact Hin].
    + lia.
Qed.

(** A task is not both active and notified. *)
Lemma active_notified_disjoint : forall l : list Task,
  (length (filter is_active l) + length (filter is_notified l)
   <= length l)%nat.
Proof.
  induction l as [|t l IH]; simpl; [lia|].
  unfold is_active at 1, is_notified at 1. destruct (t_state t); simpl; lia.
Qed.

End TaskLists.

Section RunInvariant.
Context `{Models}.
Variable auth_id : UserId.
Variable upload_slice : Z.
Variable parallel : Z.

Lemma start_invariant : forall files, invariant parallel (start files parallel).
Proof.
  intros files. constructor; simpl; try reflexivity.
  - constructor.
  - intros i. split.
    + intros [].
    + intros [t [Hnth _]]. destruct i; discriminate Hnth.
  - lia.
Qed.

Lemma admit_invariant : forall s s',
  invariant parallel s ->
  step auth_id upload_slice Admit s = Some s' ->
  invariant parallel s'.
Proof.
  intros s s' Hinv Hstep. simpl in Hstep.
  destruct (pc s) eqn:Hpc; [|discriminate].
  destruct (source s) as [|file rest]; [discriminate|].
  unfold AdvanceSemaphore.acquire in Hstep.
  destruct (AdvanceSemaphore.counter (sem s) <? AdvanceSemaphore.limit (sem s))
    eqn:Hroom; [|discriminate].
  apply Z.ltb_lt in Hroom. inversion Hstep; subst s'; clear Hstep.
  destruct Hinv as [Hlimit Hacq Hnodup Hrel Hcount Hcounter Hbound Hret].
  constructor; simpl.
  - exact Hlimit.
  - rewrite length_app. simpl. rewrite Nat.add_1_r, seq_S, Hacq. reflexivity.
  - exact Hnodup.
  - intros i. rewrite Hrel. split; intros [t [Hnth Hn]].
    + exists t. split; [|exact Hn].
      rewrite nth_error_app1; [exact Hnth|].
      apply nth_error_Some. congruence.
    + destruct (Nat.lt_ge_cases i (length (tasks s))) as [Hlt|Hge].
      * rewrite nth_error_app1 in Hnth by exact Hlt. eauto.
      * rewrite nth_error_app2 in Hnth by exact Hge.
        destruct (i - length (tasks s))%nat as [|j]; simpl in Hnth.
        -- inversion Hnth; subst. discriminate Hn.
        -- destruct j; discriminate Hnth.
  - rewrite filter_app, length_app. simpl. lia.
  - rewrite length_app. simpl. lia.
  - lia.
  - discriminate.
Qed.

Lemma complete_invariant : forall s s' i net,
  invariant parallel s ->
  step auth_id upload_slice (Complete i net) s = Some s' ->
  invariant parallel s'.
Proof.
  intros s s' i net Hinv Hstep. simpl in Hstep.
  destruct (nth_error (tasks s) i) as [[file st]|] eqn:Hnth; [|discriminate].
  destruct st; try discriminate.
  inversion Hstep; subst s'; clear Hstep.
  destruct Hinv as [Hlimit Hacq Hnodup Hrel Hcount Hcounter Hbound Hret].
  pose proof (set_state_count is_notified i
                (Finished (fst (upload_subtitles net auth_id upload_slice file
                                  {| sent := []; logs := [] |})))
                (tasks s) _ Hnth) as Hfilter.
  simpl in Hfilter.
  constructor; simpl; try rewrite set_state_length; try assumption.
  - intros j. rewrite Hrel. split; intros [t [Hj Hn]].
    + destruct (Nat.eq_dec j i) as [->|Hneq].
      * rewrite Hnth in Hj. inversion Hj; subst. discriminate Hn.
      * exists t. rewrite set_state_other by exact Hneq. auto.
    + destruct (Nat.eq_dec j i) as [->|Hneq].
      * rewrite set_state_same with (t := {| t_file := file; t_state := Active |})
          in Hj by exact Hnth.
        inversion Hj; subst. discriminate Hn.
      * rewrite set_state_other in Hj by exact Hneq. eauto.
  - lia.
Qed.

Lemma callback_invariant : forall s s' i,
  invariant parallel s ->
  step auth_id upload_slice (Callback i) s = Some s' ->
  invariant parallel s'.
Proof.
  intros s s' i Hinv Hstep. simpl in Hstep.
  destruct (nth_error (tasks s) i) as [[file st]|] eqn:Hnth; [|discriminate].
  destruct st as [|outcome|]; try discriminate.
  inversion Hstep; subst s'; clear Hstep.
  destruct Hinv as [Hlimit Hacq Hnodup Hrel Hcount Hcounter Hbound Hret].
  pose proof (set_state_count is_notified i (Notified outcome)
                (tasks s) _ Hnth) as Hfilter.
  simpl in Hfilter.
  assert (Hfresh : ~ In i (released s)).
  { intros Hin. apply Hrel in Hin. destruct Hin as [t [Hi Hn]].
    rewrite Hnth in Hi. inversion Hi; subst. discriminate Hn. }
  constructor; simpl; try rewrite set_state_length; try assumption.
  - apply NoDup_app; [exact Hnodup|repeat constructor; intros []|].
    intros j Hj [<-|[]]. exact (Hfresh Hj).
  - intros j. rewrite in_app_iff, Hrel. simpl. split.
    + intros [[t [Hj Hn]]|[<-|[]]].
      * destruct (Nat.eq_dec j i) as [->|Hneq].
        -- rewrite Hnth in Hj. inversion Hj; subst. discriminate Hn.
        -- exists t. rewrite set_state_other by exact Hneq. auto.
      * eexists. split; [apply set_state_same; exact Hnth|reflexivity].
    + intros [t [Hj Hn]]. destruct (Nat.eq_dec j i) as [->|Hneq].
      * right. left. reflexivity.
      * left. rewrite set_state_other in Hj by exact Hneq. eauto.
  - rewrite length_app. simpl. lia.
  - rewrite length_app. simpl. lia.
  - lia.
  - (* past [wait_all_finish] no callback is left to call *)
    intros Hpc. exfalso. specialize (Hret Hpc).
    assert (Hall : length (filter is_notified (tasks s)) = length (tasks s))
      by lia.
    pose proof (filter_all is_notified (tasks s) Hall _
                  (nth_error_In _ _ Hnth)) as Hn.
    discriminate Hn.
Qed.

Lemma drain_invariant : forall s s',
  invariant parallel s ->
  step auth_id upload_slice Drain s = Some s' ->
  invariant parallel s'.
Proof.
  intros s s' Hinv Hstep. simpl in Hstep.
  destruct (pc s); [|discriminate].
  destruct (source s); [|discriminate].
  unfold AdvanceSemaphore.wait_all_finish in Hstep.
  destruct (AdvanceSemaphore.counter (sem s) =? 0) eqn:Hzero; [|discriminate].
  apply Z.eqb_eq in Hzero. inversion Hstep; subst s'; clear Hstep.
  destruct Hinv as [Hlimit Hacq Hnodup Hrel Hcount Hcounter Hbound Hret].
  constructor; simpl; auto.
Qed.

Lemma step_invariant : forall e s s',
  invariant parallel s ->
  step auth_id upload_slice e s = Some s' ->
  invariant parallel s'.
Proof.
  intros [| i net | i |] s s' Hinv Hstep.
  - exact (admit_invariant s s' Hinv Hstep).
  - exact (complete_invariant s s' i net Hinv Hstep).
  - exact (callback_invariant s s' i Hinv Hstep).
  - exact (drain_invariant s s' Hinv Hstep).
Qed.

Lemma run_events_invariant : forall evs s s',
  invariant parallel s ->
  run_events auth_id upload_slice evs s = Some s' ->
  invariant parallel s'.
Proof.
  induction evs as [|e evs IH]; intros s s' Hinv Hrun; simpl in Hrun.
  - inversion Hrun; subst. exact Hinv.
  - destruct (step auth_id upload_slice e s) as [s1|] eqn:Hstep;
      [|discriminate].
    apply IH with (s := s1); [|exact Hrun].
    apply step_invariant with (e := e) (s := s); assumption.
Qed.

Lemma reachable_invariant : forall files s,
  reachable auth_id upload_slice files parallel s ->
  invariant parallel s.
Proof.
  intros files s [evs Hrun].
  apply run_events_invariant with (evs := evs) (s := start files parallel);
    [apply start_invariant|exact Hrun].
Qed.

End RunInvariant.

Section RunClaims.
Context `{Models}.
Variable auth_id : UserId.
Variable upload_slice : Z.


(** C6: in every state of a run with parallelism [parallel], at most
    [parallel] upload units are active; and the loop launches a unit only
    through the limiter's admission, which is granted only while fewer than
    [parallel] units are admitted. *)
Theorem bounded_concurrency : forall files parallel s,
  0 <= parallel ->
  reachable auth_id upload_slice files parallel s ->
  Z.of_nat (active_units s) <= parallel
  /\ (forall s', step auth_id upload_slice Admit s = Some s' ->
                 Z.of_nat (active_units s) < parallel).
Proof.
  intros files parallel s Hpos Hreach.
  destruct (reachable_invariant auth_id upload_slice parallel files s Hreach)
    as [Hlimit Hacq Hnodup Hrel Hcount Hcounter Hbound Hret].
  pose proof (active_notified_disjoint (tasks s)) as Hdisj.
  unfold active_units. split.
  - lia.
  - intros s' Hstep. simpl in Hstep.
    destruct (pc s); [|discriminate].
    destruct (source s); [discriminate|].
    unfold AdvanceSemaphore.acquire in Hstep.
    destruct (AdvanceSemaphore.counter (sem s)
              <? AdvanceSemaphore.limit (sem s)) eqn:Hroom; [|discriminate].
    apply Z.ltb_lt in Hroom. lia.
Qed.

End RunClaims.


Lemma bounded_concurrency_witness :
  exists s,
    @run Scenario.models 1 400 Scenario.batch 2 (firstn 10 Scenario.two_slots)
    = Some s
    /\ active_units s = 0%nat
    /\ Z.of_nat (active_units s) <= 2.
Proof.
  eexists. split; [vm_compute; reflexivity|]. split; [reflexivity|].
  apply (@bounded_concurrency Scenario.models 1 400 Scenario.batch 2).
  - lia.
  - exists (firstn 10 Scenario.two_slots). vm_compute. reflexivity.
Defined.

(** Scenario 5 of the specification: with two slots and five records, the
    third admission is refused while two units are admitted, and the run
    ends with every unit accounted for. *)
Example two_slots_five_records :
  (exists s, @run Scenario.models 1 400 Scenario.batch 2 [Admit; Admit] = Some s
             /\ active_units s = 2%nat
             /\ @step Scenario.models 1 400 Admit s = None)
  /\ (exists s, @run Scenario.models 1 400 Scenario.batch 2 Scenario.two_slots
                = Some s
                /\ pc s = Returned
                /\ released s = [1; 0; 2; 3; 4]%nat).
Proof.
  split; eexists; (split; [vm_compute; reflexivity|]); split; reflexivity.
Qed.

(** * Further properties of the remote operations *)

Section LookupAndCreation.
Context `{Models}.
Variable net : Network.
Variable auth_id : UserId.

(** [get_file] returns absence exactly when the remote service answers the
    lookup with a status that is not a success: a success response never
    yields [None], and no exception is turned into [None]. *)
Theorem get_file_absence_iff : forall hash w w',
  get_file net hash w = (Ok None, w') <->
  exists response,
    net (sent w) (GetFileBySha1 hash) = Replied response
    /\ is_success response = false
    /\ w' = {| sent := sent w ++ [GetFileBySha1 hash]; logs := logs w |}.
Proof.
  intros hash w w'. unfold get_file. unfold_coro. split.
  - destruct (net (sent w) (GetFileBySha1 hash)) as [response|reason] eqn:E;
      simpl; [|discriminate].
    destruct (is_success response) eqn:Hs; simpl.
    + destruct (json response) as [data|]; simpl; [|discriminate].
      destruct (FileRead_parse_obj data); simpl; discriminate.
    + intros Hrun. inversion Hrun; subst. exists response. auto.
  - intros [response [E [Hs ->]]]. rewrite E. simpl. rewrite Hs. reflexivity.
Qed.

(** On a success response [get_file] first logs that the file exists and
    then decodes the body: it returns the entity when the body validates,
    and raises (a decoding or a validation error) when it does not. *)
Theorem get_file_success_response : forall hash w response,
  net (sent w) (GetFileBySha1 hash) = Replied response ->
  is_success response = true ->
  get_file net hash w =
    (match json response with
     | None => Raise JSONDecodeError
     | Some data =>
         match FileRead_parse_obj data with
         | Some entity => Ok (Some entity)
         | None => Raise ValidationError
         end
     end,
     {| sent := sent w ++ [GetFileBySha1 hash];
        logs := logs w ++ [DebugFileExisted hash] |}).
Proof.
  intros hash w response E Hs. unfold get_file. unfold_coro.
  rewrite E. simpl. rewrite Hs. simpl.
  destruct (json response) as [data|]; simpl; [|reflexivity].
  destruct (FileRead_parse_obj data); reflexivity.
Qed.

(** The model sent by [upload_file]: the record's file name, hash, series
    and path (as remark), and the authenticated user. *)
Lemma upload_file_calls : forall file w result w',
  upload_file net auth_id file w = (result, w') ->
  (Py.truthy (series_id file) = false /\ result = Raise AssertionError
   /\ w' = w)
  \/ (Py.truthy (series_id file) = true /\
      sent w' = sent w ++ [PostFile {| fc_filename := filename file;
                                       fc_sha1 := sha1 file;
                                       fc_series_id := series_id file;
                                       fc_remark := path file;
                                       fc_user_id := auth_id |}]).
Proof.
  intros file w result w'. unfold upload_file.
  destruct (Py.truthy (series_id file)) eqn:Ht.
  - unfold_coro. simpl.
    match goal with
    | |- context [net ?h ?q] => destruct (net h q) as [r|reason]
    end; simpl.
    + destruct (is_success r); simpl.
      * destruct (json r) as [data|]; simpl.
        -- destruct (FileRead_parse_obj data); simpl; intros E;
             inversion E; right; auto.
        -- intros E; inversion E; right; auto.
      * intros E; inversion E; right; auto.
    + intros E; inversion E; right; auto.
  - unfold_coro. simpl. intros E; inversion E; subst. left; auto.
Qed.

(** With a non-empty [series_id], [upload_file] issues exactly one call,
    whatever its outcome: the creation of a file carrying the record's file
    name, hash, series and path (as remark) and the authenticated user. *)
Theorem upload_file_single_call : forall file w result w',
  Py.truthy (series_id file) = true ->
  upload_file net auth_id file w = (result, w') ->
  sent w' = sent w ++ [PostFile {| fc_filename := filename file;
                                   fc_sha1 := sha1 file;
                                   fc_series_id := series_id file;
                                   fc_remark := path file;
                                   fc_user_id := auth_id |}].
Proof.
  intros file w result w' Ht Hrun.
  destruct (upload_file_calls file w result w' Hrun) as [[Hf _]|[_ Hs]].
  - congruence.
  - exact Hs.
Qed.

(** A file creation answered with a status that is not a success raises the
    status error carrying that response; nothing is logged. *)
Theorem upload_file_rejected : forall file w response,
  Py.truthy (series_id file) = true ->
  net (sent w) (PostFile {| fc_filename := filename file;
                            fc_sha1 := sha1 file;
                            fc_series_id := series_id file;
                            fc_remark := path file;
                            fc_user_id := auth_id |}) = Replied response ->
  is_success response = false ->
  exists w',
    upload_file net auth_id file w = (Raise (HTTPStatusError response), w')
    /\ logs w' = logs w.
Proof.
  intros file w response Ht E Hs. unfold upload_file. rewrite Ht.
  unfold_coro. simpl. rewrite E. simpl. rewrite Hs. simpl.
  eexists. split; reflexivity.
Qed.

(** A file creation that is served: the entity is returned and one debug
    line is logged. *)
Lemma upload_file_served : forall file w response data created,
  Py.truthy (series_id file) = true ->
  net (sent w) (PostFile {| fc_filename := filename file;
                            fc_sha1 := sha1 file;
                            fc_series_id := series_id file;
                            fc_remark := path file;
                            fc_user_id := auth_id |}) = Replied response ->
  is_success response = true ->
  json response = Some data ->
  FileRead_parse_obj data = Some created ->
  upload_file net auth_id file w =
    (Ok created,
     {| sent := sent w ++ [PostFile {| fc_filename := filename file;
                                       fc_sha1 := sha1 file;
                                       fc_series_id := series_id file;
                                       fc_remark := path file;
                                       fc_user_id := auth_id |}];
        logs := logs w ++ [DebugFileSynced (filename file) (sha1 file)] |}).
Proof.
  intros file w response data created Ht E Hs Hj Hp.
  unfold upload_file. rewrite Ht. unfold_coro. simpl.
  rewrite E. simpl. rewrite Hs. simpl. rewrite Hj. simpl. rewrite Hp.
  reflexivity.
Qed.

End LookupAndCreation.

Lemma get_file_absence_iff_witness :
  get_file Scenario.fresh "def456" Scenario.nothing
  = (Ok None, {| sent := [GetFileBySha1 "def456"]; logs := [] |}).
Proof.
  apply (proj2 (get_file_absence_iff Scenario.fresh "def456" Scenario.nothing
                  {| sent := [GetFileBySha1 "def456"]; logs := [] |})).
  exists Scenario.not_found. repeat split.
Defined.

Lemma get_file_success_response_witness :
  get_file Scenario.known "abc123" Scenario.nothing
  = (Ok (Some "f1"%string),
     {| sent := [GetFileBySha1 "abc123"];
        logs := [DebugFileExisted "abc123"] |}).
Proof.
  apply (get_file_success_response Scenario.known "abc123" Scenario.nothing
           (Scenario.file_entity "f1")); reflexivity.
Defined.

Lemma upload_file_single_call_witness :
  let file := Scenario.record "def456" Scenario.five in
  sent (snd (upload_file Scenario.rejecting 1 file Scenario.nothing))
  = [PostFile (@mkFileCreate Scenario.models "ep01.ass" "def456"
                 (Py.PyInt 7) "/subs/ep01.ass" 1)].
Proof.
  intros file.
  apply (upload_file_single_call Scenario.rejecting 1 file Scenario.nothing
           (fst (upload_file Scenario.rejecting 1 file Scenario.nothing))
           (snd (upload_file Scenario.rejecting 1 file Scenario.nothing)));
    reflexivity.
Defined.

Lemma upload_file_rejected_witness :
  let file := Scenario.record "def456" Scenario.five in
  exists w',
    upload_file Scenario.rejecting 1 file Scenario.nothing
    = (Raise (HTTPStatusError Scenario.rejected), w')
    /\ logs w' = [].
Proof.
  intros file.
  apply (upload_file_rejected Scenario.rejecting 1 file Scenario.nothing
           Scenario.rejected); reflexivity.
Defined.

(** * Further properties of the bulk creation of dialogs *)

Section BulkCreation.
Context `{Models}.
Variable net : Network.
Variable auth_id : UserId.
Variable upload_slice : Z.

(** [range] with a step of zero. *)
Lemma zero_slice_raises : forall file_id dialogs slice w,
  effective_slice upload_slice slice = 0 ->
  upload_dialogs net auth_id upload_slice file_id dialogs slice w
  = (Raise ValueError, w).
Proof.
  intros file_id dialogs slice w Hz. unfold upload_dialogs. rewrite Hz.
  reflexivity.
Qed.

(** A slice size of zero (no [slice] argument, or zero, and an instance
    slice size of zero) makes [upload_dialogs] raise [ValueError] before any
    call is issued, whatever the dialogs. *)
Theorem upload_dialogs_zero_slice : forall file_id dialogs slice w,
  effective_slice upload_slice slice = 0 ->
  upload_dialogs net auth_id upload_slice file_id dialogs slice w
  = (Raise ValueError, w).
Proof. exact zero_slice_raises. Qed.

(** [range] with a negative step from zero upwards is empty. *)
Lemma negative_slice_empty : forall file_id dialogs slice w,
  effective_slice upload_slice slice < 0 ->
  upload_dialogs net auth_id upload_slice file_id dialogs slice w = (Ok [], w).
Proof.
  intros file_id dialogs slice w Hneg. unfold upload_dialogs.
  unfold Py.range, Py.range_length.
  replace (effective_slice upload_slice slice =? 0) with false
    by (symmetry; apply Z.eqb_neq; lia).
  replace (0 <? effective_slice upload_slice slice) with false
    by (symmetry; apply Z.ltb_ge; lia).
  replace (Z.of_nat (length (bulk_data auth_id file_id dialogs)) <? 0)
    with false by (symmetry; apply Z.ltb_ge; lia).
  reflexivity.
Qed.

(** A negative slice size makes [upload_dialogs] return an empty list
    without issuing any call: no dialog is submitted, however many there
    are, and no error is raised. *)
Theorem upload_dialogs_negative_slice : forall file_id dialogs slice w,
  effective_slice upload_slice slice < 0 ->
  upload_dialogs net auth_id upload_slice file_id dialogs slice w = (Ok [], w).
Proof. exact negative_slice_empty. Qed.

(** Without dialogs, and with a slice size other than zero, [upload_dialogs]
    returns an empty list without issuing any call. *)
Theorem upload_dialogs_no_dialogs : forall file_id slice w,
  effective_slice upload_slice slice <> 0 ->
  upload_dialogs net auth_id upload_slice file_id [] slice w = (Ok [], w).
Proof.
  intros file_id slice w Hnz. unfold upload_dialogs.
  unfold Py.range, Py.range_length. simpl.
  replace (effective_slice upload_slice slice =? 0) with false
    by (symmetry; apply Z.eqb_neq; lia).
  destruct (0 <? effective_slice upload_slice slice); reflexivity.
Qed.

(** Every call of one iteration is recorded, whatever its outcome. *)
Lemma submit_chunk_sent : forall file_id bulk size b w result w',
  submit_chunk net file_id bulk size b w = (result, w') ->
  sent w' = sent w ++ [PostDialogsBulk 30 (chunk_at bulk size b)].
Proof.
  intros file_id bulk size b w result w'. unfold submit_chunk, chunk_at.
  unfold_coro.
  destruct (net (sent w) (PostDialogsBulk 30 (Py.slice bulk b (b + size))))
    as [r|reason]; simpl.
  - destruct (is_success r); simpl.
    + destruct (json r) as [data|]; simpl.
      * destruct (json_iter data) as [items|]; simpl.
        -- destruct (parse_dialogs items); simpl; intros E;
             inversion E; reflexivity.
        -- intros E; inversion E; reflexivity.
      * intros E; inversion E; reflexivity.
    + intros E; inversion E; reflexivity.
  - intros E; inversion E; reflexivity.
Qed.

(** The loop visits the offsets in order and stops at the first iteration
    that raises: the calls issued are those of a prefix of the offsets, of
    all of them when the loop ends normally. *)
Lemma upload_loop_sent : forall file_id bulk size offsets responses w result w',
  upload_loop net file_id bulk size offsets responses w = (result, w') ->
  exists k : nat,
    (k <= length offsets)%nat
    /\ sent w' = sent w ++ map (PostDialogsBulk 30)
                             (map (chunk_at bulk size) (firstn k offsets))
    /\ (forall entities, result = Ok entities -> k = length offsets).
Proof.
  intros file_id bulk size.
  induction offsets as [|b rest IH]; intros responses w result w' Hrun.
  - simpl in Hrun. unfold ret in Hrun. inversion Hrun; subst.
    exists 0%nat. simpl. rewrite app_nil_r. auto.
  - simpl in Hrun. unfold bind in Hrun.
    destruct (submit_chunk net file_id bulk size b w) as [[created|e] w1]
      eqn:Hsub; pose proof (submit_chunk_sent _ _ _ _ _ _ _ Hsub) as Hs1.
    + destruct (IH _ _ _ _ Hrun) as [k [Hk [Hsent Hall]]].
      exists (S k). simpl. split; [lia|]. split.
      * rewrite Hsent, Hs1, <- app_assoc. reflexivity.
      * intros entities Hr. f_equal. eapply Hall. exact Hr.
    + inversion Hrun; subst. exists 1%nat. simpl. split; [lia|].
      split; [exact Hs1|]. intros entities Hr. discriminate Hr.
Qed.

(** The calls of [upload_dialogs] are those of a prefix of the chunks. *)
Lemma upload_dialogs_sent : forall file_id dialogs slice w result w',
  let size := effective_slice upload_slice slice in
  let chunks := chunks_of (bulk_data auth_id file_id dialogs) size in
  upload_dialogs net auth_id upload_slice file_id dialogs slice w
    = (result, w') ->
  exists k : nat,
    (k <= length chunks)%nat
    /\ sent w' = sent w ++ map (PostDialogsBulk 30) (firstn k chunks)
    /\ (forall entities, 1 <= size -> result = Ok entities ->
                         k = length chunks).
Proof.
  intros file_id dialogs slice w result w' size chunks Hrun.
  destruct (Z.lt_ge_cases size 1) as [Hsmall|Hpos].
  - (* zero or negative: nothing is sent *)
    exists 0%nat. split; [lia|]. split; [|intros; lia].
    simpl. rewrite app_nil_r.
    destruct (Z.eq_dec size 0) as [Hz|Hnz].
    + rewrite zero_slice_raises in Hrun by exact Hz.
      inversion Hrun; reflexivity.
    + rewrite negative_slice_empty in Hrun by (fold size; lia).
      inversion Hrun; reflexivity.
  - destruct (chunks_of_range (bulk_data auth_id file_id dialogs) size Hpos)
      as [offsets [Hrange Hchunks]].
    unfold upload_dialogs in Hrun. fold size in Hrun.
    unfold bind, or_raise in Hrun. rewrite Hrange in Hrun.
    unfold ret at 1 in Hrun.
    destruct (upload_loop_sent _ _ _ _ _ _ _ _ Hrun) as [k [Hk [Hsent Hall]]].
    exists k. unfold chunks. rewrite Hchunks, length_map, firstn_map.
    split; [exact Hk|]. split; [exact Hsent|].
    intros entities _ Hr. eapply Hall. exact Hr.
Qed.

(** Whatever its outcome, the calls [upload_dialogs] issues are bulk
    creations with the timeout of 30 seconds, for the first chunks of the
    partition in their order (none of them when the slice size is not
    positive); when it returns normally with a positive slice size, every
    chunk has been submitted. *)
Theorem upload_dialogs_calls : forall file_id dialogs slice w result w',
  let size := effective_slice upload_slice slice in
  let chunks := chunks_of (bulk_data auth_id file_id dialogs) size in
  upload_dialogs net auth_id upload_slice file_id dialogs slice w
    = (result, w') ->
  exists k : nat,
    (k <= length chunks)%nat
    /\ sent w' = sent w ++ map (PostDialogsBulk 30) (firstn k chunks)
    /\ (forall entities, 1 <= size -> result = Ok entities ->
                         k = length chunks).
Proof. exact upload_dialogs_sent. Qed.

(** When every chunk is served, [upload_dialogs] returns the replies put
    together, having issued one call per chunk. *)
Lemma upload_dialogs_served : forall file_id dialogs slice w replies,
  1 <= effective_slice upload_slice slice ->
  served net (sent w)
    (chunks_of (bulk_data auth_id file_id dialogs)
       (effective_slice upload_slice slice)) replies ->
  exists w',
    upload_dialogs net auth_id upload_slice file_id dialogs slice w
      = (Ok (concat replies), w')
    /\ sent w' = sent w ++ map (PostDialogsBulk 30)
                             (chunks_of (bulk_data auth_id file_id dialogs)
                                (effective_slice upload_slice slice)).
Proof.
  intros file_id dialogs slice w replies Hsize Hserved.
  destruct (chunks_of_range (bulk_data auth_id file_id dialogs)
              (effective_slice upload_slice slice) Hsize)
    as [offsets [Hrange Hchunks]].
  unfold upload_dialogs. unfold bind, or_raise. rewrite Hrange.
  unfold ret at 1. rewrite Hchunks in *.
  rewrite upload_loop_served with (replies := replies) by exact Hserved.
  eexists. split; reflexivity.
Qed.

End BulkCreation.

Section ChunkShape.
Context `{Models}.
Variable net : Network.
Variable auth_id : UserId.
Variable upload_slice : Z.

(** For a slice size [S >= 1] over [L] dialogs, the chunk at offset
    [k * S] holds [min(S, L - k * S)] dialogs and at least one: every chunk
    but the last is full, and no empty chunk is ever submitted. *)
Theorem chunk_sizes : forall (bulk : list DialogCreate) (size : Z) (k : nat),
  1 <= size ->
  (k < length (chunks_of bulk size))%nat ->
  Z.of_nat (length (nth k (chunks_of bulk size) []))
  = Z.min size (Z.of_nat (length bulk) - Z.of_nat k * size)
  /\ 1 <= Z.of_nat (length (nth k (chunks_of bulk size) [])).
Proof.
  intros bulk size k Hsize Hk.
  rewrite chunks_of_nth by assumption.
  change (Py.slice bulk (Z.of_nat k * size) (Z.of_nat k * size + size))
    with (chunk_at bulk size (Z.of_nat k * size)).
  rewrite chunk_at_nat by exact Hsize.
  rewrite length_firstn, length_skipn.
  pose proof (chunks_of_length bulk size Hsize) as Hn.
  pose proof (ceil_div_spec (Z.of_nat (length bulk)) size Hsize ltac:(lia))
    as [_ Hupper].
  assert (Hks : Z.of_nat (k * Z.to_nat size) = Z.of_nat k * size)
    by (rewrite Nat2Z.inj_mul, Z2Nat.id by lia; reflexivity).
  assert (Hlt : Z.of_nat k * size < Z.of_nat (length bulk)) by nia.
  remember (k * Z.to_nat size)%nat as ks. lia.
Qed.

(** A service that serves every bulk call with the images under [g] of
    the submitted dialogs serves any sequence of chunks. *)
Lemma served_uniform : forall (g : DialogCreate -> DialogEntity),
  (forall history chunk, exists response,
      net history (PostDialogsBulk 30 chunk) = Replied response
      /\ is_success response = true
      /\ chunk_entities response = Some (map g chunk)) ->
  forall chunks history, served net history chunks (map (map g) chunks).
Proof.
  intros g Hnet. induction chunks as [|chunk chunks IH]; intros history.
  - constructor.
  - destruct (Hnet history chunk) as [response [E [Hs He]]].
    simpl. apply served_cons with (response := response); auto.
Qed.

(** When the service creates one entity per submitted dialog, in the order
    of the bulk call, [upload_dialogs] returns one entity per dialog in the
    order of the input, whatever the slice size [S >= 1]. *)
Theorem upload_dialogs_order_preserved :
  forall (g : DialogCreate -> DialogEntity) file_id dialogs slice w,
  1 <= effective_slice upload_slice slice ->
  (forall history chunk, exists response,
      net history (PostDialogsBulk 30 chunk) = Replied response
      /\ is_success response = true
      /\ chunk_entities response = Some (map g chunk)) ->
  fst (upload_dialogs net auth_id upload_slice file_id dialogs slice w)
  = Ok (map g (bulk_data auth_id file_id dialogs)).
Proof.
  intros g file_id dialogs slice w Hsize Hnet.
  set (size := effective_slice upload_slice slice) in *.
  set (bulk := bulk_data auth_id file_id dialogs).
  destruct (chunks_of_range bulk size Hsize) as [offsets [Hrange Hchunks]].
  unfold upload_dialogs. fold bulk. fold size.
  unfold bind, or_raise. rewrite Hrange. unfold ret at 1.
  rewrite upload_loop_served
    with (replies := map (map g) (map (chunk_at bulk size) offsets))
    by (apply served_uniform; exact Hnet).
  simpl. rewrite <- concat_map, <- Hchunks, chunks_of_concat by exact Hsize.
  reflexivity.
Qed.

(** When every chunk is served, [upload_dialogs] logs one debug line per
    chunk, in order, with the offset [k * S], the bound [k * S + S] (not
    cut down to the number of dialogs) and the number of dialogs. *)
Theorem upload_dialogs_log_lines : forall file_id dialogs slice w replies,
  let size := effective_slice upload_slice slice in
  let bulk := bulk_data auth_id file_id dialogs in
  1 <= size ->
  served net (sent w) (chunks_of bulk size) replies ->
  logs (snd (upload_dialogs net auth_id upload_slice file_id dialogs slice w))
  = logs w
    ++ map (fun k : nat =>
              DebugDialogsSynced file_id (Z.of_nat k * size)
                (Z.of_nat k * size + size) (Z.of_nat (length dialogs)))
           (seq 0 (length (chunks_of bulk size))).
Proof.
  intros file_id dialogs slice w replies size bulk Hsize Hserved.
  pose proof (range_offsets (Z.of_nat (length bulk)) size Hsize ltac:(lia))
    as Hrange.
  assert (Hchunks : chunks_of bulk size
                    = map (chunk_at bulk size)
                        (map (fun k : nat => Z.of_nat k * size)
                           (seq 0 (Z.to_nat (ceil_div (Z.of_nat (length bulk))
                                               size)))))
    by (unfold chunks_of; rewrite map_map; reflexivity).
  unfold upload_dialogs. fold bulk. fold size.
  unfold bind, or_raise. rewrite Hrange. unfold ret at 1.
  rewrite Hchunks in Hserved.
  rewrite upload_loop_served with (replies := replies) by exact Hserved.
  simpl. rewrite Hchunks, !length_map, length_seq, map_map.
  unfold bulk, bulk_data. rewrite length_map. reflexivity.
Qed.

End ChunkShape.

Lemma upload_dialogs_zero_slice_witness :
  upload_dialogs Scenario.fresh 1 0 "f1" (map Scenario.dialog Scenario.five)
    None Scenario.nothing
  = (Raise ValueError, Scenario.nothing).
Proof.
  apply (upload_dialogs_zero_slice Scenario.fresh 1 0 "f1"
           (map Scenario.dialog Scenario.five) None Scenario.nothing).
  reflexivity.
Defined.

Lemma upload_dialogs_negative_slice_witness :
  upload_dialogs Scenario.fresh 1 400 "f1" (map Scenario.dialog Scenario.five)
    (Some (-2)) Scenario.nothing
  = (Ok [], Scenario.nothing).
Proof.
  apply (upload_dialogs_negative_slice Scenario.fresh 1 400 "f1"
           (map Scenario.dialog Scenario.five) (Some (-2)) Scenario.nothing).
  simpl. lia.
Defined.

Lemma upload_dialogs_no_dialogs_witness :
  upload_dialogs Scenario.rejecting 1 400 "f1" [] None Scenario.nothing
  = (Ok [], Scenario.nothing).
Proof.
  apply (upload_dialogs_no_dialogs Scenario.rejecting 1 400 "f1" None
           Scenario.nothing).
  simpl. lia.
Defined.

Lemma upload_dialogs_calls_witness :
  let dialogs := map Scenario.dialog Scenario.five in
  let chunks := chunks_of (@bulk_data Scenario.models 1 "f1" dialogs) 2 in
  exists k : nat,
    (k <= length chunks)%nat
    /\ sent (snd (upload_dialogs Scenario.second_chunk_rejected 1 400 "f1"
                    dialogs (Some 2) Scenario.nothing))
       = [] ++ map (PostDialogsBulk 30) (firstn k chunks).
Proof.
  intros dialogs chunks.
  destruct (upload_dialogs_calls Scenario.second_chunk_rejected 1 400 "f1"
              dialogs (Some 2) Scenario.nothing
              (fst (upload_dialogs Scenario.second_chunk_rejected 1 400 "f1"
                      dialogs (Some 2) Scenario.nothing))
              (snd (upload_dialogs Scenario.second_chunk_rejected 1 400 "f1"
                      dialogs (Some 2) Scenario.nothing))
              eq_refl) as [k [Hk [Hsent _]]].
  exists k. split; [exact Hk|exact Hsent].
Defined.

Lemma chunk_sizes_witness :
  let bulk := @bulk_data Scenario.models 1 "f1"
                (map Scenario.dialog Scenario.five) in
  Z.of_nat (length (nth 2 (chunks_of bulk 2) [])) = Z.min 2 (5 - 2 * 2)
  /\ 1 <= Z.of_nat (length (nth 2 (chunks_of bulk 2) [])).
Proof.
  intros bulk. apply (chunk_sizes bulk 2 2).
  - lia.
  - vm_compute. lia.
Defined.

Lemma upload_dialogs_order_preserved_witness :
  fst (upload_dialogs Scenario.fresh 1 400 "f1"
         (map Scenario.dialog Scenario.five) (Some 2) Scenario.nothing)
  = Ok (map (@dc_content Scenario.models)
          (@bulk_data Scenario.models 1 "f1"
             (map Scenario.dialog Scenario.five))).
Proof.
  apply (upload_dialogs_order_preserved Scenario.fresh 1 400
           (@dc_content Scenario.models) "f1"
           (map Scenario.dialog Scenario.five) (Some 2) Scenario.nothing).
  - simpl. lia.
  - intros history chunk. eexists. split; [reflexivity|].
    split; [reflexivity|].
    unfold chunk_entities. simpl.
    induction chunk as [|d chunk IH]; simpl; [reflexivity|].
    rewrite IH. reflexivity.
Defined.

Lemma upload_dialogs_log_lines_witness :
  logs (snd (upload_dialogs Scenario.fresh 1 400 "f1"
               (map Scenario.dialog Scenario.five) (Some 2) Scenario.nothing))
  = [DebugDialogsSynced "f1" 0 2 5; DebugDialogsSynced "f1" 2 4 5;
     DebugDialogsSynced "f1" 4 6 5].
Proof.
  apply (upload_dialogs_log_lines Scenario.fresh 1 400 "f1"
           (map Scenario.dialog Scenario.five) (Some 2) Scenario.nothing
           [["a"; "b"]; ["c"; "d"]; ["e"]]%string).
  - simpl. lia.
  - repeat (econstructor; try reflexivity).
Defined.

(** * Further properties of the upload unit *)

Section UnitCalls.
Context `{Models}.
Variable net : Network.
Variable auth_id : UserId.
Variable upload_slice : Z.

(** The handlers of [upload_subtitles] only log: the calls issued by the
    unit are those of the lookup, followed, when the lookup returned
    absence, by those of the creation sequence. *)
Lemma upload_subtitles_sent : forall file w result w',
  upload_subtitles net auth_id upload_slice file w = (result, w') ->
  (exists found w1,
      get_file net (sha1 file) w = (found, w1)
      /\ found <> Ok None /\ sent w' = sent w1)
  \/ (exists w1 created w2,
        get_file net (sha1 file) w = (Ok None, w1)
        /\ create_sequence net auth_id upload_slice file w1 = (created, w2)
        /\ sent w' = sent w2).
Proof.
  intros file w result w'.
  unfold upload_subtitles, unit_body, try_except, bind.
  destruct (get_file net (sha1 file) w) as [[[entity|]|e] w1] eqn:E1.
  - unfold ret. intros E; inversion E; subst. left.
    exists (Ok (Some entity)), w'. repeat split. discriminate.
  - destruct (create_sequence net auth_id upload_slice file w1)
      as [[r|e] w2] eqn:E2.
    + intros E; inversion E; subst. right. exists w1, (Ok r), w'. auto.
    + intros E. right. exists w1, (Raise e), w2. split; [reflexivity|].
      split; [exact E2|]. revert E.
      destruct e; simpl; unfold response_json, or_raise, bind, ret, raise,
        log, logged; try (intros E; inversion E; reflexivity).
      destruct (json response); simpl; intros E; inversion E; reflexivity.
  - simpl. unfold bind, log, raise, logged. intros E; inversion E; subst.
    left. exists (Raise e), w1. repeat split. discriminate.
Qed.

(** The calls of the creation sequence: none when the assertion fails, else
    the file creation followed by the calls of [upload_dialogs] for the
    created file. *)
Lemma create_sequence_sent : forall file w result w',
  create_sequence net auth_id upload_slice file w = (result, w') ->
  sent w' = sent w
  \/ exists file_id (k : nat),
       sent w' = sent w
                 ++ PostFile {| fc_filename := filename file;
                                fc_sha1 := sha1 file;
                                fc_series_id := series_id file;
                                fc_remark := path file;
                                fc_user_id := auth_id |}
                    :: map (PostDialogsBulk 30)
                         (firstn k (chunks_of
                                      (bulk_data auth_id file_id (dialogs file))
                                      upload_slice)).
Proof.
  intros file w result w'. unfold create_sequence, bind.
  destruct (upload_file net auth_id file w) as [[created|e] w1] eqn:E1;
    pose proof (upload_file_calls net auth_id file w _ _ E1)
      as [[_ [Hr Hsame]]|[_ Hone]].
  - discriminate Hr.
  - destruct (upload_dialogs net auth_id upload_slice (entity_id created)
                (dialogs file) None w1) as [r2 w2] eqn:E2.
    destruct (upload_dialogs_sent net auth_id upload_slice _ _ _ _ _ _ E2)
      as [k [_ [Hsent _]]].
    intros E.
    assert (Hw : w' = w2) by (destruct r2; inversion E; reflexivity).
    subst w'. right. exists (entity_id created), k.
    rewrite Hsent, Hone, <- app_assoc. reflexivity.
  - intros E; inversion E; subst. left. reflexivity.
  - intros E; inversion E; subst. right. exists EmptyString, 0%nat.
    exact Hone.
Qed.

(** Whatever its outcome, a unit issues its calls in the order of the
    protocol: first the lookup by the record's hash; then either nothing
    more, or one file creation followed by bulk creations for the first
    chunks of the record's dialogs, in their order.  It never creates
    before looking up, never creates a file twice, and never submits
    dialogs without having created the file. *)
Theorem upload_subtitles_calls : forall file w result w',
  upload_subtitles net auth_id upload_slice file w = (result, w') ->
  sent w' = sent w ++ [GetFileBySha1 (sha1 file)]
  \/ exists file_id (k : nat),
       sent w' = sent w
                 ++ GetFileBySha1 (sha1 file)
                    :: PostFile {| fc_filename := filename file;
                                   fc_sha1 := sha1 file;
                                   fc_series_id := series_id file;
                                   fc_remark := path file;
                                   fc_user_id := auth_id |}
                    :: map (PostDialogsBulk 30)
                         (firstn k (chunks_of
                                      (bulk_data auth_id file_id (dialogs file))
                                      upload_slice)).
Proof.
  intros file w result w' Hrun.
  destruct (upload_subtitles_sent file w result w' Hrun)
    as [[found [w1 [E1 [_ Hsent]]]]|[w1 [created [w2 [E1 [E2 Hsent]]]]]];
    pose proof (get_file_sent net _ _ _ _ E1) as Hlookup.
  - left. congruence.
  - destruct (create_sequence_sent file w1 created w2 E2)
      as [Hsame|[file_id [k Hcalls]]].
    + left. congruence.
    + right. exists file_id, k.
      rewrite Hsent, Hcalls, Hlookup, <- app_assoc. reflexivity.
Qed.

(** A record that is not upstream is uploaded in full: when the lookup is
    answered with a status that is not a success, the file creation is
    served and every chunk of the record's dialogs is served, the unit
    returns the created dialogs, chunk after chunk, having issued the
    lookup, the file creation and one bulk creation per chunk, in that
    order. *)
Theorem new_record_uploaded :
  forall file w absent accepted data created replies,
  let lookup := GetFileBySha1 (sha1 file) in
  let creation := PostFile {| fc_filename := filename file;
                              fc_sha1 := sha1 file;
                              fc_series_id := series_id file;
                              fc_remark := path file;
                              fc_user_id := auth_id |} in
  let chunks := chunks_of (bulk_data auth_id (entity_id created) (dialogs file))
                  upload_slice in
  net (sent w) lookup = Replied absent ->
  is_success absent = false ->
  Py.truthy (series_id file) = true ->
  net (sent w ++ [lookup]) creation = Replied accepted ->
  is_success accepted = true ->
  json accepted = Some data ->
  FileRead_parse_obj data = Some created ->
  1 <= upload_slice ->
  served net (sent w ++ [lookup; creation]) chunks replies ->
  exists w',
    upload_subtitles net auth_id upload_slice file w
      = (Ok (Some (concat replies)), w')
    /\ sent w' = sent w ++ lookup :: creation
                            :: map (PostDialogsBulk 30) chunks.
Proof.
  intros file w absent accepted data created replies lookup creation chunks
         Hlookup Habsent Hseries Hcreation Haccepted Hdata Hcreated Hslice
         Hserved.
  assert (E1 : get_file net (sha1 file) w
               = (Ok None, {| sent := sent w ++ [lookup]; logs := logs w |})).
  { unfold get_file. unfold_coro. fold lookup. rewrite Hlookup. simpl.
    rewrite Habsent. reflexivity. }
  pose proof (upload_file_served net auth_id file
                {| sent := sent w ++ [lookup]; logs := logs w |}
                accepted data created Hseries Hcreation Haccepted Hdata
                Hcreated) as E2.
  simpl sent in E2. simpl logs in E2. fold creation in E2.
  destruct (upload_dialogs_served net auth_id upload_slice
              (entity_id created) (dialogs file) None
              {| sent := (sent w ++ [lookup]) ++ [creation];
                 logs := logs w ++ [DebugFileSynced (filename file)
                                      (sha1 file)] |}
              replies) as [w' [E3 Hsent]].
  - exact Hslice.
  - simpl. rewrite <- app_assoc. exact Hserved.
  - exists w'. split.
    + apply unit_returns. unfold unit_body, bind. rewrite E1.
      unfold try_except.
      rewrite create_sequence_returns
        with (created := created)
             (w1 := {| sent := (sent w ++ [lookup]) ++ [creation];
                       logs := logs w ++ [DebugFileSynced (filename file)
                                            (sha1 file)] |})
             (entities := concat replies) (w' := w');
        [reflexivity|exact E2|exact E3].
    + rewrite Hsent. simpl. rewrite <- !app_assoc. reflexivity.
Qed.

End UnitCalls.

Lemma upload_subtitles_calls_witness :
  let file := Scenario.record "def456" Scenario.five in
  let w' := snd (upload_subtitles Scenario.second_chunk_rejected 1 2 file
                   Scenario.nothing) in
  sent w' = [] ++ [GetFileBySha1 (sha1 file)]
  \/ exists (file_id : string) (k : nat),
       sent w' = []
                 ++ GetFileBySha1 (sha1 file)
                    :: PostFile (@mkFileCreate Scenario.models
                                   (filename file) (sha1 file)
                                   (series_id file) (path file) 1)
                    :: map (PostDialogsBulk 30)
                         (firstn k (chunks_of
                                      (@bulk_data Scenario.models 1 file_id
                                         (dialogs file)) 2)).
Proof.
  intros file w'.
  apply (upload_subtitles_calls Scenario.second_chunk_rejected 1 2 file
           Scenario.nothing
           (fst (upload_subtitles Scenario.second_chunk_rejected 1 2 file
                   Scenario.nothing)) w').
  reflexivity.
Defined.

Lemma new_record_uploaded_witness :
  let file := Scenario.record "def456" Scenario.five in
  exists w',
    upload_subtitles Scenario.fresh 1 2 file Scenario.nothing
    = (Ok (Some Scenario.five), w')
    /\ length (sent w') = 5%nat.
Proof.
  intros file.
  destruct (new_record_uploaded Scenario.fresh 1 2 file Scenario.nothing
              Scenario.not_found (Scenario.file_entity "f1")
              (JObj [("id"%string, JStr "f1")]) "f1"%string
              [["a"; "b"]; ["c"; "d"]; ["e"]]%string)
    as [w' [Hrun Hsent]]; try reflexivity.
  - lia.
  - repeat (econstructor; try reflexivity).
  - exists w'. split; [exact Hrun|]. rewrite Hsent. reflexivity.
Defined.

(** * Further properties of the orchestrator *)

Section RunOrder.
Context `{Models}.
Variable auth_id : UserId.
Variable upload_slice : Z.

Lemma set_state_files : forall i st (l : list Task),
  map t_file (set_state i st l) = map t_file l.
Proof.
  intros i st l. revert i.
  induction l as [|t l IH]; intros [|i]; simpl; try reflexivity.
  rewrite IH. reflexivity.
Qed.

(** A step keeps the records in order, and leaves nothing to yield once
    [run] has returned. *)
Lemma step_order : forall e s s',
  step auth_id upload_slice e s = Some s' ->
  map t_file (tasks s') ++ source s' = map t_file (tasks s) ++ source s
  /\ ((pc s = Returned -> source s = []) ->
      pc s' = Returned -> source s' = []).
Proof.
  intros [| i net | i |] s s' Hstep; simpl in Hstep.
  - destruct (pc s); [|discriminate].
    destruct (source s) as [|file rest]; [discriminate|].
    destruct (AdvanceSemaphore.acquire (sem s)); [|discriminate].
    inversion Hstep; subst s'; simpl. split.
    + rewrite map_app, <- app_assoc. reflexivity.
    + intros _ Hpc. discriminate Hpc.
  - destruct (nth_error (tasks s) i) as [[file st]|]; [|discriminate].
    destruct st; try discriminate.
    inversion Hstep; subst s'; simpl. rewrite set_state_files. auto.
  - destruct (nth_error (tasks s) i) as [[file st]|]; [|discriminate].
    destruct st; try discriminate.
    inversion Hstep; subst s'; simpl. rewrite set_state_files. auto.
  - destruct (pc s); [|discriminate].
    destruct (source s); [|discriminate].
    destruct (AdvanceSemaphore.wait_all_finish (sem s)); [|discriminate].
    inversion Hstep; subst s'; simpl. auto.
Qed.

Lemma run_events_order : forall evs s s',
  run_events auth_id upload_slice evs s = Some s' ->
  map t_file (tasks s') ++ source s' = map t_file (tasks s) ++ source s
  /\ ((pc s = Returned -> source s = []) ->
      pc s' = Returned -> source s' = []).
Proof.
  induction evs as [|e evs IH]; intros s s' Hrun; simpl in Hrun.
  - inversion Hrun; subst. auto.
  - destruct (step auth_id upload_slice e s) as [s1|] eqn:Hstep;
      [|discriminate].
    destruct (step_order e s s1 Hstep) as [Hfiles1 Hret1].
    destruct (IH s1 s' Hrun) as [Hfiles Hret].
    split; [congruence|auto].
Qed.

(** Units are launched for the records in the order of the source, none
    skipped and none twice: in every state of [run], the records of the
    tasks created so far, followed by the records still to be yielded, are
    the records of the source. *)
Theorem records_launched_in_order : forall files parallel s,
  reachable auth_id upload_slice files parallel s ->
  map t_file (tasks s) ++ source s = files.
Proof.
  intros files parallel s [evs Hrun].
  destruct (run_events_order evs _ _ Hrun) as [Hfiles _].
  exact Hfiles.
Qed.

(** [run] returns only when everything is done: once it is past
    [wait_all_finish], a unit has been launched for every record of the
    source, in order, and every unit has finished and had its done-callback
    called. *)
Theorem run_returns_after_all_units : forall files parallel s,
  reachable auth_id upload_slice files parallel s ->
  pc s = Returned ->
  map t_file (tasks s) = files
  /\ Forall (fun t => exists outcome, t_state t = Notified outcome) (tasks s).
Proof.
  intros files parallel s Hreach Hpc.
  pose proof (reachable_invariant auth_id upload_slice parallel files s Hreach)
    as [Hlimit Hacq Hnodup Hrel Hcount Hcounter Hbound Hret].
  destruct Hreach as [evs Hrun].
  destruct (run_events_order evs _ _ Hrun) as [Hfiles Hsource].
  simpl in Hfiles, Hsource.
  rewrite (Hsource ltac:(discriminate) Hpc), app_nil_r in Hfiles.
  split; [exact Hfiles|].
  specialize (Hret Hpc).
  assert (Hall : length (filter is_notified (tasks s)) = length (tasks s))
    by lia.
  apply Forall_forall. intros t Hin.
  pose proof (filter_all is_notified (tasks s) Hall t Hin) as Hn.
  unfold is_notified in Hn. destruct (t_state t) as [| |outcome];
    try discriminate Hn. eauto.
Qed.

(** Either some task has not had its done-callback called, or all have. *)
Lemma pending_task : forall l : list Task,
  (exists i t, nth_error l i = Some t /\ is_notified t = false)
  \/ length (filter is_notified l) = length l.
Proof.
  induction l as [|t l IH].
  - right. reflexivity.
  - destruct (is_notified t) eqn:Hn.
    + destruct IH as [[i [t' [Hnth Hp]]]|Hall].
      * left. exists (S i), t'. auto.
      * right. simpl. rewrite Hn. simpl. congruence.
    + left. exists 0%nat, t. auto.
Qed.

(** With at least one slot, [run] is never stuck before it returns: in
    every state some step is possible, be it a unit finishing, a
    done-callback being called, the next record being admitted, or
    [wait_all_finish] returning. *)
Theorem run_never_stuck : forall files parallel s,
  1 <= parallel ->
  reachable auth_id upload_slice files parallel s ->
  pc s = Iterating ->
  exists e s', step auth_id upload_slice e s = Some s'.
Proof.
  intros files parallel s Hslots Hreach Hpc.
  pose proof (reachable_invariant auth_id upload_slice parallel files s Hreach)
    as [Hlimit Hacq Hnodup Hrel Hcount Hcounter Hbound Hret].
  destruct (pending_task (tasks s)) as [[i [[file st] [Hnth Hp]]]|Hall].
  - destruct st as [|outcome|outcome].
    + exists (Complete i (fun _ _ => Failed EmptyString)). simpl.
      rewrite Hnth. eauto.
    + exists (Callback i). simpl. rewrite Hnth. eauto.
    + discriminate Hp.
  - assert (Hzero : AdvanceSemaphore.counter (sem s) = 0) by lia.
    destruct (source s) as [|file rest] eqn:Hsrc.
    + exists Drain. simpl. rewrite Hpc, Hsrc.
      unfold AdvanceSemaphore.wait_all_finish. rewrite Hzero. simpl. eauto.
    + exists Admit. simpl. rewrite Hpc, Hsrc.
      unfold AdvanceSemaphore.acquire. rewrite Hzero, Hlimit.
      replace (0 <? parallel) with true by (symmetry; apply Z.ltb_lt; lia).
      eauto.
Qed.

End RunOrder.

Lemma records_launched_in_order_witness :
  exists s,
    @run Scenario.models 1 400 Scenario.batch 2 (firstn 6 Scenario.two_slots)
    = Some s
    /\ length (tasks s) = 3%nat
    /\ map t_file (tasks s) ++ source s = Scenario.batch.
Proof.
  eexists. split; [vm_compute; reflexivity|]. split; [reflexivity|].
  apply (@records_launched_in_order Scenario.models 1 400 Scenario.batch 2).
  exists (firstn 6 Scenario.two_slots). vm_compute. reflexivity.
Defined.

Lemma run_returns_after_all_units_witness :
  exists s,
    @run Scenario.models 1 400 Scenario.batch 2 Scenario.two_slots = Some s
    /\ map t_file (tasks s) = Scenario.batch
    /\ Forall (fun t => exists outcome, t_state t = Notified outcome) (tasks s).
Proof.
  eexists. split; [vm_compute; reflexivity|].
  apply (@run_returns_after_all_units Scenario.models 1 400 Scenario.batch 2).
  - exists Scenario.two_slots. vm_compute. reflexivity.
  - reflexivity.
Defined.

Lemma run_never_stuck_witness :
  exists e s',
    @step Scenario.models 1 400 e (start Scenario.batch 2) = Some s'.
Proof.
  apply (@run_never_stuck Scenario.models 1 400 Scenario.batch 2).
  - lia.
  - exists []. reflexivity.
  - reflexivity.
Defined.

(** * What is submitted *)

Section Submitted.
Context `{Models}.
Variable net : Network.
Variable auth_id : UserId.
Variable upload_slice : Z.

Lemma slice_incl : forall (A : Type) (l : list A) (lo hi : Z) (x : A),
  In x (Py.slice l lo hi) -> In x l.
Proof.
  intros A l lo hi x. unfold Py.slice.
  set (n := Z.to_nat _). set (m := Z.to_nat _). intros Hin.
  rewrite <- (firstn_skipn m l). apply in_or_app. right.
  rewrite <- (firstn_skipn n (skipn m l)). apply in_or_app. left. exact Hin.
Qed.

Lemma loop_calls_attached : forall (bulk : list DialogCreate) size offsets
                                   (k : nat),
  Forall (fun q => exists chunk,
              q = PostDialogsBulk 30 chunk
              /\ Forall (fun d => In d bulk) chunk)
         (map (PostDialogsBulk 30)
            (map (chunk_at bulk size) (firstn k offsets))).
Proof.
  intros bulk size offsets k. apply Forall_forall. intros q Hq.
  apply in_map_iff in Hq. destruct Hq as [chunk [<- Hchunk]].
  apply in_map_iff in Hchunk. destruct Hchunk as [b [<- _]].
  eexists. split; [reflexivity|].
  apply Forall_forall. intros d Hd. unfold chunk_at in Hd.
  exact (slice_incl _ _ _ _ _ Hd).
Qed.

(** Whatever its outcome and whatever the slice size, every call
    [upload_dialogs] issues is a bulk creation with the timeout of 30
    seconds, and every dialog it submits is one of the given dialogs,
    attached to the given file id and to the authenticated user. *)
Theorem submitted_dialogs_attached : forall file_id dialogs slice w result w',
  upload_dialogs net auth_id upload_slice file_id dialogs slice w
    = (result, w') ->
  exists calls,
    sent w' = sent w ++ calls
    /\ Forall (fun q => exists chunk,
                 q = PostDialogsBulk 30 chunk
                 /\ Forall (fun d =>
                              dc_file_id d = file_id
                              /\ dc_user_id d = auth_id
                              /\ exists dialog,
                                   In dialog dialogs
                                   /\ dc_content d = content dialog
                                   /\ dc_begin d = begin_ dialog
                                   /\ dc_end d = end_ dialog) chunk)
              calls.
Proof.
  intros file_id dialogs slice w result w'. unfold upload_dialogs.
  unfold bind, or_raise.
  destruct (Py.range 0 (Z.of_nat (length (bulk_data auth_id file_id dialogs)))
              (effective_slice upload_slice slice)) as [offsets|].
  - unfold ret at 1. intros Hrun.
    destruct (upload_loop_sent net _ _ _ _ _ _ _ _ Hrun) as [k [_ [Hsent _]]].
    eexists. split; [exact Hsent|].
    pose proof (loop_calls_attached
                  (bulk_data auth_id file_id dialogs)
                  (effective_slice upload_slice slice) offsets k) as Hcalls.
    eapply Forall_impl; [|exact Hcalls].
    intros q [chunk [-> Hchunk]]. exists chunk. split; [reflexivity|].
    eapply Forall_impl; [|exact Hchunk].
    intros d Hd. unfold bulk_data in Hd. apply in_map_iff in Hd.
    destruct Hd as [dialog [<- Hin]]. simpl. eauto 10.
  - unfold raise. intros Hrun. inversion Hrun; subst.
    exists []. rewrite app_nil_r. split; [reflexivity|constructor].
Qed.

End Submitted.

Lemma submitted_dialogs_attached_witness :
  let dialogs := map Scenario.dialog Scenario.five in
  let w' := snd (upload_dialogs Scenario.second_chunk_rejected 1 400 "f1"
                   dialogs (Some 2) Scenario.nothing) in
  exists calls,
    sent w' = [] ++ calls
    /\ Forall (fun q => exists chunk,
                 q = PostDialogsBulk 30 chunk
                 /\ Forall (fun d : @DialogCreate Scenario.models =>
                              dc_file_id d = "f1"%string
                              /\ dc_user_id d = 1
                              /\ exists dialog,
                                   In dialog dialogs
                                   /\ dc_content d = content dialog
                                   /\ dc_begin d = begin_ dialog
                                   /\ dc_end d = end_ dialog) chunk)
              calls.
Proof.
  intros dialogs w'.
  apply (submitted_dialogs_attached Scenario.second_chunk_rejected 1 400 "f1"
           dialogs (Some 2) Scenario.nothing
           (fst (upload_dialogs Scenario.second_chunk_rejected 1 400 "f1"
                   dialogs (Some 2) Scenario.nothing)) w').
  reflexivity.
Defined.
